(** * SimpleRequestCacheAdapter: a shallow embedding of the cache policy
      engine and of its IndexedDB-backed entry store.

    The development follows the adapter source (the class
    [SimpleRequestCacheAdapter], its [IDBStore] and the helper
    [configDoesntConform]); the module [Legacy] embeds the earlier
    revision of the same file (free functions [resolveTTLSeconds] and
    [isExplicitCache]) for comparison. *)

From Stdlib Require Import ZArith Lia Ascii String.
From stdpp Require Import gmap strings list fin_maps.

Local Open Scope string_scope.
Local Open Scope Z_scope.

(* ===================================================================== *)
(** ** JavaScript values, as far as the adapter inspects them            *)
(* ===================================================================== *)

Module JS.

(** A JavaScript number.  Finite numbers are modelled by integers (TTLs in
    seconds, clock readings in milliseconds); [NaN] is kept because
    [typeof NaN === 'number'] while [NaN] is falsy and unequal to itself.
    Fractions and infinities are outside the model, and so is the rounding
    of doubles: [add] and [mul] below compute in the integers, which is
    what the doubles of JavaScript compute as long as the operands and the
    result are integers of magnitude at most 2^53 ([safe_integer]); clock
    readings in milliseconds and TTLs in seconds of any realistic size are
    well within that range. *)
Inductive num : Type :=
| Fin (z : Z)
| NaN.

(** The values a property of a cache-configuration object may hold. *)
Inductive prim : Type :=
| PUndef
| PNull
| PBool (b : bool)
| PNum (n : num).

(** A value found under a [cache] key: a primitive, a string, or an object
    whose own properties hold primitives (an absent property reads as
    [undefined]). *)
Inductive value : Type :=
| VPrim (p : prim)
| VStr (s : string)
| VObj (o : gmap string prim).

Inductive jstype : Type :=
| TUndefined | TObject | TBoolean | TNumber | TString.

Definition jstype_eqb (a b : jstype) : bool :=
  match a, b with
  | TUndefined, TUndefined | TObject, TObject | TBoolean, TBoolean
  | TNumber, TNumber | TString, TString => true
  | _, _ => false
  end.

(** [typeof p]: note [typeof null === 'object']. *)
Definition typeof_prim (p : prim) : jstype :=
  match p with
  | PUndef => TUndefined
  | PNull => TObject
  | PBool _ => TBoolean
  | PNum _ => TNumber
  end.

Definition typeof (v : value) : jstype :=
  match v with
  | VPrim p => typeof_prim p
  | VStr _ => TString
  | VObj _ => TObject
  end.

(** [v.name] for a value that is not null or undefined. *)
Definition get_prop (v : value) (name : string) : prim :=
  match v with
  | VObj o => default PUndef (o !! name)
  | _ => PUndef
  end.

(** ToBoolean. *)
Definition truthy (p : prim) : bool :=
  match p with
  | PUndef | PNull => false
  | PBool b => b
  | PNum (Fin z) => negb (z =? 0)
  | PNum NaN => false
  end.

(** [a || b] on primitives. *)
Definition or_else (a b : prim) : prim := if truthy a then a else b.

(** Strict equality [===] on primitives. *)
Definition strict_eq (a b : prim) : bool :=
  match a, b with
  | PUndef, PUndef => true
  | PNull, PNull => true
  | PBool x, PBool y => Bool.eqb x y
  | PNum (Fin x), PNum (Fin y) => x =? y
  | _, _ => false
  end.

(** ToNumber on primitives. *)
Definition to_number (p : prim) : num :=
  match p with
  | PUndef => NaN
  | PNull => Fin 0
  | PBool true => Fin 1
  | PBool false => Fin 0
  | PNum n => n
  end.

(** The integers that a double holds exactly, one by one. *)
Definition safe_integer (z : Z) : Prop :=
  -9007199254740992 <= z <= 9007199254740992.

(** [a * b], exact on safe integers with a safe product. *)
Definition mul (a b : num) : num :=
  match a, b with
  | Fin x, Fin y => Fin (x * y)
  | _, _ => NaN
  end.

(** [a + b], exact on safe integers with a safe sum. *)
Definition add (a b : num) : num :=
  match a, b with
  | Fin x, Fin y => Fin (x + y)
  | _, _ => NaN
  end.

(** [a > b]; any comparison with [NaN] is false. *)
Definition gt (a b : num) : bool :=
  match a, b with
  | Fin x, Fin y => y <? x
  | _, _ => false
  end.

(** [a <= b]; any comparison with [NaN] is false. *)
Definition le (a b : num) : bool :=
  match a, b with
  | Fin x, Fin y => x <=? y
  | _, _ => false
  end.

End JS.

Import JS.

(* ===================================================================== *)
(** ** Errors and results                                                *)
(* ===================================================================== *)

Inductive error : Type :=
| InvalidCacheConfig     (* 'Cache config must be a number or an object ...' *)
| EmptyCacheName         (* 'cacheName is cannot be an empty string' *)
| StorageUnavailable     (* 'IndexedDB not available' *)
| StorageIO (what : string) (* a rejected IndexedDB request or open *)
| HashUnavailable        (* controls.getHash() threw *)
| BodyUnreadable         (* clone(), json() or text() threw *)
| TypeError (what : string)
| DataError.             (* IDBKeyRange.upperBound(NaN): NaN is not a valid key *)

Inductive result (A : Type) : Type :=
| Ok (a : A)
| Throw (e : error).
Arguments Ok {A} a.
Arguments Throw {A} e.

(* ===================================================================== *)
(** ** Cache configuration                                               *)
(* ===================================================================== *)

(** [ExtendedCacheMeta].  The TypeScript type says [ttlSeconds : number];
    at run time the field holds whatever [meta.cache.ttlSeconds || 0]
    evaluates to. *)
Record ExtendedCacheMeta : Type := mkExt {
  ttlSeconds : prim;
  hashBody : bool
}.

(** A meta object ([config.meta], [apiMeta], [endpoint.meta]) as far as its
    own [cache] property goes: the map holds the keys the object owns. *)
Abbreviation MetaObj := (gmap string value).

(** [meta?.cache] *)
Definition meta_cache (meta : option MetaObj) : value :=
  match meta with
  | Some m => default (VPrim PUndef) (m !! "cache")
  | None => VPrim PUndef
  end.

(** [configDoesntConform(cacheConfig)] *)
Definition configDoesntConform (cacheConfig : value) : bool :=
  negb (jstype_eqb (typeof cacheConfig) TUndefined) &&
  negb (jstype_eqb (typeof cacheConfig) TNumber ||
        (jstype_eqb (typeof cacheConfig) TObject &&
         negb (match cacheConfig with VPrim PNull => true | _ => false end) &&
         (jstype_eqb (typeof_prim (get_prop cacheConfig "ttlSeconds")) TNumber ||
          jstype_eqb (typeof_prim (get_prop cacheConfig "hashBody")) TBoolean))).

(** [resolveCacheMetaConfig(meta)] *)
Definition resolveCacheMetaConfig (meta : option MetaObj) : result ExtendedCacheMeta :=
  if jstype_eqb (typeof (meta_cache meta)) TUndefined then
    Ok {| ttlSeconds := PNum (Fin 0); hashBody := false |}
  else if configDoesntConform (meta_cache meta) then
    Throw InvalidCacheConfig
  else
    let ttl :=
      match meta_cache meta with
      | VPrim (PNum n) => PNum n
      | c => or_else (get_prop c "ttlSeconds") (PNum (Fin 0))
      end in
    let hashBody :=
      strict_eq (get_prop (meta_cache meta) "hashBody") (PBool true) || false in
    Ok {| ttlSeconds := ttl; hashBody := hashBody |}.

(** Sequencing of fallible steps: an exception leaves the enclosing
    function at once. *)
Definition rbind {A B : Type} (r : result A) (k : A -> result B) : result B :=
  match r with
  | Ok a => k a
  | Throw e => Throw e
  end.

Notation "'let!' x ':=' r 'in' k" := (rbind r (fun x => k))
  (at level 10, x pattern, r at level 100, k at level 200).

(* ===================================================================== *)
(** ** Request configuration                                             *)
(* ===================================================================== *)

(** [config.meta.api.endpoint] *)
Record Endpoint : Type := mkEndpoint {
  ep_meta : option MetaObj
}.

(** [config.meta.api] *)
Record ApiInfo : Type := mkApi {
  apiMeta : option MetaObj;
  endpoint : option Endpoint
}.

(** [config.meta]: its own properties other than [api], and [api]. *)
Record Meta : Type := mkMeta {
  own : MetaObj;
  api : option ApiInfo
}.

Record RequestConfig : Type := mkConfig {
  method : string;
  meta : option Meta;
  jsonMimeTypes : list string;
  textMimeTypes : list string
}.

(** [config.meta] as passed to [resolveCacheMetaConfig] *)
Definition config_meta (config : RequestConfig) : option MetaObj :=
  own <$> meta config.

(** [config.meta?.api?.apiMeta] *)
Definition config_apiMeta (config : RequestConfig) : option MetaObj :=
  (meta config ≫= api) ≫= apiMeta.

(** [config.meta?.api?.endpoint?.meta] *)
Definition config_endpointMeta (config : RequestConfig) : option MetaObj :=
  ((meta config ≫= api) ≫= endpoint) ≫= ep_meta.

(** [Object.prototype.hasOwnProperty.call(o, name)] *)
Definition hasOwnProperty (o : MetaObj) (name : string) : bool :=
  bool_decide (is_Some (o !! name)).

(** [isExplicitCache(config)] *)
Definition isExplicitCache (config : RequestConfig) : result bool :=
  let! apiLevel := resolveCacheMetaConfig (config_apiMeta config) in
  let apiLevelTTL := ttlSeconds apiLevel in
  let endpointMeta := default ∅ (config_endpointMeta config) in
  let endpointHasCache := hasOwnProperty endpointMeta "cache" in
  let! current := resolveCacheMetaConfig (config_meta config) in
  let currentTTL := ttlSeconds current in
  if endpointHasCache then Ok true
  else if negb (jstype_eqb (typeof_prim apiLevelTTL) TUndefined) &&
          negb (strict_eq currentTTL apiLevelTTL) then Ok true
  else Ok false.

(* ===================================================================== *)
(** ** The earlier revision of the policy functions                      *)
(* ===================================================================== *)

Module Legacy.

(** [resolveTTLSeconds(config)], on a [config?.meta?.cache] that is a
    primitive: [Number(cache || 0)], clamped to non-negative. *)
Definition resolveTTLSeconds (cache : prim) : num :=
  let ttl := to_number (or_else cache (PNum (Fin 0))) in
  if gt ttl (Fin 0) then ttl else Fin 0.

(** [isExplicitCache(config)], on the three values it reads:
    [apiMeta?.cache], whether the endpoint meta owns a [cache] key, and
    [config.meta?.cache]. *)
Definition isExplicitCache (apiLevelTTL : prim) (endpointHasCache : bool)
    (currentTTL : prim) : bool :=
  if endpointHasCache then true
  else if negb (jstype_eqb (typeof_prim apiLevelTTL) TUndefined) &&
          negb (strict_eq currentTTL apiLevelTTL) then true
  else false.

End Legacy.

(* ===================================================================== *)
(** ** Cache entries, promises, events                                   *)
(* ===================================================================== *)

(** A decoded response payload: the value of [response.json()] or the
    string of [response.text()]. *)
Inductive json : Type :=
| JNull
| JBool (b : bool)
| JNum (z : Z)
| JStr (s : string)
| JCompound (text : string).   (* an array or an object, by its JSON text *)

Inductive Body : Type :=
| BJson (j : json)
| BText (s : string).

(** [body === null] *)
Definition body_is_null (b : Body) : bool :=
  match b with
  | BJson JNull => true
  | _ => false
  end.

Record CacheEntry : Type := mkEntry {
  hash : string;
  body : Body;
  createdAt : num;
  expiresAt : num
}.

(** A promise: its identity and how it settles. *)
Record Promise (A : Type) : Type := mkPromise {
  pid : nat;
  outcome : result A
}.
Arguments mkPromise {A} pid outcome.
Arguments pid {A} p.
Arguments outcome {A} p.

Inductive StoreOp : Type := OpGet | OpPut | OpDelete | OpClear | OpSweep.

(** Which response object a body read is made on. *)
Inductive Target : Type := Original | Clone.

(** What an execution does that its surroundings can observe. *)
Inductive event : Type :=
| EvStart (p : nat)                 (* an async store method is called; it returns promise p *)
| EvAwait (p : nat)                 (* await of promise p *)
| EvIDBOpen (name : string)         (* indexedDB.open(dbName, 1) *)
| EvStoreGet (h : string)           (* objectStore.get(hash) *)
| EvStorePut (e : CacheEntry)       (* objectStore.put(entry) *)
| EvStoreDelete (h : string)        (* objectStore.delete(hash) *)
| EvStoreClear                      (* objectStore.clear() *)
| EvStoreSweep (nowMs : num)        (* cursor over index 'expiresAt', upperBound(nowMs) *)
| EvFilter                          (* this.filter(config) *)
| EvFinaliseURL                     (* controls.finaliseURL() *)
| EvGetHash (includeBody : bool)    (* controls.getHash({ includeBody }) *)
| EvLogError (msg : string) (e : error) (* factory.logger.error(msg, e) *)
| EvClone                           (* response.clone() *)
| EvReadJson (t : Target)           (* .json() *)
| EvReadText (t : Target).          (* .text() *)

(** Requests against the object store. *)
Definition is_store_access (ev : event) : bool :=
  match ev with
  | EvStoreGet _ | EvStorePut _ | EvStoreDelete _ | EvStoreClear
  | EvStoreSweep _ => true
  | _ => false
  end.

(* ===================================================================== *)
(** ** The world an execution runs in                                    *)
(* ===================================================================== *)

(** [IDBStore]: the fields of the class. *)
Record IDBStore : Type := mkStore {
  dbName : string;
  storeName : string;
  dbPromise : option (Promise unit)
}.

(** The mutable state: the adapter's store object, the records of the
    object store of its database, and the next unused promise identity. *)
Record World : Type := mkWorld {
  store : IDBStore;
  db : gmap string CacheEntry;
  next_pid : nat
}.

(** What the runtime and the host pipeline answer during one call. *)
Record Env : Type := mkEnv {
  supported : bool;                       (* typeof indexedDB !== 'undefined' *)
  open_outcome : result unit;             (* how a newly started open settles *)
  request_error : StoreOp -> option error; (* a request fires onerror *)
  now : Z;                                (* Date.now() *)
  getHash : bool -> option string;        (* controls.getHash; None: it throws *)
  regex_test : string -> string -> bool   (* new RegExp(pattern, 'i').test(s) *)
}.

(** Computations: a trace of events, the world afterwards, and a value or
    an exception. *)
Definition M (A : Type) : Type := World -> list event * World * result A.

Definition ret {A : Type} (a : A) : M A := fun w => ([], w, Ok a).

Definition throw {A : Type} (e : error) : M A := fun w => ([], w, Throw e).

Definition bind {A B : Type} (m : M A) (k : A -> M B) : M B :=
  fun w =>
    match m w with
    | (t1, w1, Ok a) =>
        match k a w1 with
        | (t2, w2, r) => ((t1 ++ t2)%list, w2, r)
        end
    | (t1, w1, Throw e) => (t1, w1, Throw e)
    end.

(** [try { m } catch (e) { h e }] *)
Definition try_catch {A : Type} (m : M A) (h : error -> M A) : M A :=
  fun w =>
    match m w with
    | (t1, w1, Ok a) => (t1, w1, Ok a)
    | (t1, w1, Throw e) =>
        match h e w1 with
        | (t2, w2, r) => ((t1 ++ t2)%list, w2, r)
        end
    end.

Definition emit (ev : event) : M unit := fun w => ([ev], w, Ok tt).

Definition lift {A : Type} (r : result A) : M A := fun w => ([], w, r).

Definition get_world : M World := fun w => ([], w, Ok w).

Definition put_world (w' : World) : M unit := fun _ => ([], w', Ok tt).

Notation "'let*' x ':=' m 'in' k" := (bind m (fun x => k))
  (at level 10, x pattern, m at level 100, k at level 200).

(** Calling an async function: the body runs, and the caller gets a promise
    that settles the way the body ends; the call itself never throws.
    IndexedDB runs the transactions of one connection in the order they are
    created, which is the order of the calls, so the body's effect on the
    records is applied where the call is made. *)
Definition async_call {A : Type} (m : M A) : M (Promise A) :=
  fun w =>
    let p := next_pid w in
    match m (mkWorld (store w) (db w) (S p)) with
    | (t, w', r) => (EvStart p :: t, w', Ok (mkPromise p r))
    end.

(** [await p] *)
Definition await {A : Type} (p : Promise A) : M A :=
  let* _ := emit (EvAwait (pid p)) in lift (outcome p).

(** [await p] for a [p] that may be undefined *)
Definition await_opt (p : option (Promise unit)) : M unit :=
  match p with
  | Some p => await p
  | None => ret tt
  end.

(* ===================================================================== *)
(** ** IDBStore                                                          *)
(* ===================================================================== *)

Module Store.

Section WithEnv.
Variable env : Env.

(** [open()].  The method has no [await]: it throws, or returns the
    promise already held in [dbPromise], or calls [indexedDB.open] and
    stores the new promise before returning it, all in one synchronous
    step, so that calls made while the open is in flight are calls made one
    after the other.  The promise of the [async] wrapper settles as
    [dbPromise] does; an await of it is recorded as an await of
    [dbPromise]. *)
Definition open : M (Promise unit) :=
  let* w := get_world in
  if negb (supported env) then throw StorageUnavailable
  else
    match dbPromise (store w) with
    | Some p => ret p
    | None =>
        let p := mkPromise (next_pid w) (open_outcome env) in
        let* _ := emit (EvIDBOpen (dbName (store w))) in
        let* _ := put_world
                    (mkWorld (mkStore (dbName (store w)) (storeName (store w)) (Some p))
                             (db w) (S (next_pid w))) in
        ret p
    end.

(** [tx(mode)]: [await this.open()], then the object store. *)
Definition tx : M unit :=
  let* p := open in
  await p.

(** A request on the object store: it fires [onerror] or [onsuccess]. *)
Definition request {A : Type} (op : StoreOp) (ev : event) (on_success : M A) : M A :=
  let* _ := emit ev in
  match request_error env op with
  | Some e => throw e
  | None => on_success
  end.

(** [get(hash)]: [req.result || null] *)
Definition get (h : string) : M (option CacheEntry) :=
  let* _ := tx in
  request OpGet (EvStoreGet h)
    (let* w := get_world in ret (db w !! h)).

(** [set(entry)]: [store.put(entry)], keyed by [entry.hash] *)
Definition set (entry : CacheEntry) : M unit :=
  let* _ := tx in
  request OpPut (EvStorePut entry)
    (let* w := get_world in
     put_world (mkWorld (store w) (<[hash entry := entry]> (db w)) (next_pid w))).

(** [delete(hash)] *)
Definition delete (h : string) : M unit :=
  let* _ := tx in
  request OpDelete (EvStoreDelete h)
    (let* w := get_world in
     put_world (mkWorld (store w) (base.delete h (db w)) (next_pid w))).

(** [clear()] *)
Definition clear : M unit :=
  let* _ := tx in
  request OpClear EvStoreClear
    (let* w := get_world in
     put_world (mkWorld (store w) ∅ (next_pid w))).

(** [cleanupExpired(nowMs)]: [IDBKeyRange.upperBound(nowMs)] throws a
    [DataError] for a bound that is not a valid key, which among numbers is
    [NaN]; the exception is raised in the executor of the returned promise,
    before any request, and rejects it.  Otherwise the cursor visits the
    records whose [expiresAt] is at most [nowMs] and deletes each. *)
Definition cleanupExpired (nowMs : num) : M unit :=
  let* p := open in
  let* _ := await p in
  match nowMs with
  | NaN => throw DataError
  | Fin _ =>
      request OpSweep (EvStoreSweep nowMs)
        (let* w := get_world in
         put_world (mkWorld (store w)
                            (filter (fun kv => negb (le (expiresAt kv.2) nowMs) = true) (db w))
                            (next_pid w)))
  end.

End WithEnv.

End Store.

(* ===================================================================== *)
(** ** Responses                                                         *)
(* ===================================================================== *)

(** What a Response holds when the interceptor receives it. *)
Record Response : Type := mkResponse {
  resp_ok : bool;                   (* response.ok *)
  content_type : option string;     (* response.headers.get('content-type') *)
  bodyUsed : bool;                  (* the body stream was already read *)
  json_of : result json;            (* what json() yields on an unread body *)
  text_of : result string           (* what text() yields on an unread body *)
}.

(** A Response object at run time: what it holds, and whether it is the
    object the host pipeline handed over or a copy made by [clone()].  A
    read of a body is recorded with the object it is made on. *)
Record ResponseObject : Type := mkObject {
  content : Response;
  identity : Target
}.

(** The object handed to the interceptor, which downstream consumers read
    after it. *)
Definition original (response : Response) : ResponseObject :=
  mkObject response Original.

(** [s.split(/;\s?/)[0]]: the text before the first semicolon. *)
Fixpoint before_semicolon (s : string) : string :=
  match s with
  | EmptyString => EmptyString
  | String c rest =>
      if Ascii.eqb c ";"%char then EmptyString
      else String c (before_semicolon rest)
  end.

(** [o.clone()]: refused once the body of [o] was read; the copy holds
    what [o] holds, with an unread body of its own. *)
Definition clone (o : ResponseObject) : M ResponseObject :=
  let* _ := emit EvClone in
  if bodyUsed (content o) then throw (TypeError "Response body is already used")
  else ret (mkObject (content o) Clone).

(** [o.json()]: reads the body of [o]; refused when it was read before. *)
Definition read_json (o : ResponseObject) : M json :=
  let* _ := emit (EvReadJson (identity o)) in
  if bodyUsed (content o) then throw (TypeError "Body has already been read")
  else lift (json_of (content o)).

(** [o.text()]: reads the body of [o]; refused when it was read before. *)
Definition read_text (o : ResponseObject) : M string :=
  let* _ := emit (EvReadText (identity o)) in
  if bodyUsed (content o) then throw (TypeError "Body has already been read")
  else lift (text_of (content o)).

(* ===================================================================== *)
(** ** SimpleRequestCacheAdapter                                         *)
(* ===================================================================== *)

Record SimpleRequestCacheAdapterOptions : Type := mkOptions {
  cacheName : option string;
  opt_filter : option (RequestConfig -> bool);
  opt_clear : option bool
}.

(** The handle received on attach; the adapter only uses its logger. *)
Inductive HTTPRequestFactory : Type := mkFactory.

(** The private fields of the class other than [store], which lives in the
    world. *)
Record Adapter : Type := mkAdapter {
  a_filter : option (RequestConfig -> bool);
  clearOnAttach : bool;
  factory : option HTTPRequestFactory;
  readyPromise : option (Promise unit)
}.

(** The default value of the constructor's parameter. *)
Definition default_options : SimpleRequestCacheAdapterOptions :=
  mkOptions (Some "apihive-request-cache") None None.

(** [new SimpleRequestCacheAdapter(options)]; [None] is a call without the
    argument.  The result is the adapter and its fresh store object. *)
Definition constructor (options : option SimpleRequestCacheAdapterOptions)
    : result (Adapter * IDBStore) :=
  let options := default default_options options in
  let clear := default false (opt_clear options) in
  match cacheName options with
  | None => Throw EmptyCacheName
  | Some name =>
      if String.eqb name "" then Throw EmptyCacheName
      else Ok (mkAdapter (opt_filter options) (negb (negb clear)) None None,
               mkStore name "entries" None)
  end.

Section WithEnv.
Variable env : Env.

(** [onAttach(factory)] *)
Definition onAttach (this : Adapter) (f : HTTPRequestFactory) : M Adapter :=
  let this := mkAdapter (a_filter this) (clearOnAttach this) (Some f) (readyPromise this) in
  try_catch
    (if clearOnAttach this then
       let* _ := async_call (Store.clear env) in
       ret this
     else
       let* p := async_call (Store.cleanupExpired env (Fin (now env))) in
       ret (mkAdapter (a_filter this) (clearOnAttach this) (factory this) (Some p)))
    (fun _ => ret this).

(** [this.factory!.logger.error(msg, e)] *)
Definition log_error (this : Adapter) (msg : string) (e : error) : M unit :=
  match factory this with
  | Some _ => emit (EvLogError msg e)
  | None => throw (TypeError "Cannot read properties of undefined (reading 'logger')")
  end.

(** [!explicit && this.filter && !this.filter(config)] *)
Definition vetoed (this : Adapter) (explicit : bool) (config : RequestConfig) : M bool :=
  if negb explicit then
    match a_filter this with
    | Some f => let* _ := emit EvFilter in ret (negb (f config))
    | None => ret false
    end
  else ret false.

(** [controls.getHash({ includeBody })] inside its [try] *)
Definition tryGetHash (includeBody : bool) : M (option string) :=
  let* _ := emit (EvGetHash includeBody) in
  ret (getHash env includeBody).

(** The request interceptor; [None] is a plain [return]. *)
Definition requestInterceptor (this : Adapter) (config : RequestConfig) : M (option Body) :=
  let* _ := await_opt (readyPromise this) in
  let* cm := lift (resolveCacheMetaConfig (config_meta config)) in
  if negb (truthy (ttlSeconds cm)) then ret None
  else
    let* explicit := lift (isExplicitCache config) in
    let* veto := vetoed this explicit config in
    if veto then ret None
    else
      let* _ := emit EvFinaliseURL in
      let* oh := tryGetHash (hashBody cm) in
      match oh with
      | None => ret None
      | Some h =>
          try_catch
            (let* entry := Store.get env h in
             match entry with
             | Some e =>
                 if gt (expiresAt e) (Fin (now env)) then ret (Some (body e))
                 else ret None
             | None => ret None
             end)
            (fun e =>
               let* _ := log_error this "Failed to read cache entry" e in
               ret None)
      end.

(** [isJSONResponse(config, contentType)] *)
Definition isJSONResponse (config : RequestConfig) (contentType : string) : bool :=
  existsb (fun type => regex_test env type contentType) (jsonMimeTypes config).

(** [isTextResponse(config, contentType)] *)
Definition isTextResponse (config : RequestConfig) (contentType : string) : bool :=
  existsb (fun type => regex_test env type contentType) (textMimeTypes config).

(** [readResponseSafely(response, config)]; [None] is [null].  Inside each
    [try], [Some] is a value returned from the function. *)
Definition readResponseSafely (response : Response) (config : RequestConfig)
    : M (option Body) :=
  let ct := default "" (before_semicolon <$> content_type response) in
  let* r1 :=
    try_catch
      (if isJSONResponse config ct then
         let* copy := clone (original response) in
         let* j := read_json copy in
         ret (Some (BJson j))
       else ret None)
      (fun _ => ret None) in
  match r1 with
  | Some b => ret (Some b)
  | None =>
      let* r2 :=
        try_catch
          (if isTextResponse config ct then
             let* copy := clone (original response) in
             let* s := read_text copy in
             ret (Some (BText s))
           else ret None)
          (fun _ => ret None) in
      match r2 with
      | Some b => ret (Some b)
      | None => ret None
      end
  end.

(** The response interceptor; [None] is an absent response. *)
Definition responseInterceptor (this : Adapter) (response : option Response)
    (config : RequestConfig) : M unit :=
  let* _ := await_opt (readyPromise this) in
  let* cm := lift (resolveCacheMetaConfig (config_meta config)) in
  if negb (truthy (ttlSeconds cm)) then ret tt
  else
    let* explicit := lift (isExplicitCache config) in
    let* veto := vetoed this explicit config in
    if veto then ret tt
    else
      match response with
      | None => ret tt
      | Some response =>
          if negb (resp_ok response) then ret tt
          else
            let* b := readResponseSafely response config in
            match b with
            | None => ret tt
            | Some b =>
                if body_is_null b then ret tt
                else
                  let* oh := tryGetHash (hashBody cm) in
                  match oh with
                  | None => ret tt
                  | Some h =>
                      let now := Fin (now env) in
                      let entry :=
                        mkEntry h b now
                                (add now (mul (to_number (ttlSeconds cm)) (Fin 1000))) in
                      try_catch
                        (Store.set env entry)
                        (fun e => log_error this "Failed to write cache entry" e)
                  end
            end
      end.

(** [clearCache()] *)
Definition clearCache : M unit := Store.clear env.

End WithEnv.

(* ===================================================================== *)
(** ** Vocabulary of the statements                                      *)
(* ===================================================================== *)

(** The cache setting is a number. *)
Definition is_number (c : value) : Prop := exists n, c = VPrim (PNum n).

(** The cache setting is an object carrying a numeric [ttlSeconds] or a
    boolean [hashBody]. *)
Definition carries_setting (c : value) : Prop :=
  exists o, c = VObj o /\
    ((exists n, o !! "ttlSeconds" = Some (PNum n)) \/
     (exists b, o !! "hashBody" = Some (PBool b))).

(** The rule for requests without an endpoint [cache] key, as the
    specification words it: such a request is explicit only when the API
    carries a cache setting and its TTL differs from the request's. *)
Definition explicit_only_against_api_setting (config : RequestConfig) : Prop :=
  hasOwnProperty (default ∅ (config_endpointMeta config)) "cache" = false ->
  isExplicitCache config = Ok true ->
  meta_cache (config_apiMeta config) <> VPrim PUndef /\
  exists apiLevel current,
    resolveCacheMetaConfig (config_apiMeta config) = Ok apiLevel /\
    resolveCacheMetaConfig (config_meta config) = Ok current /\
    strict_eq (ttlSeconds current) (ttlSeconds apiLevel) = false.

(** No request reaches the object store in this trace. *)
Definition no_store_access (t : list event) : bool :=
  forallb (fun ev => negb (is_store_access ev)) t.

(** The first request to the object store in the trace, if there is one,
    comes after an await of promise [p]. *)
Fixpoint awaits_before_access (p : nat) (t : list event) : bool :=
  match t with
  | [] => true
  | EvAwait q :: rest => if Nat.eqb q p then true else awaits_before_access p rest
  | ev :: rest => if is_store_access ev then false else awaits_before_access p rest
  end.

(** The number of calls of [indexedDB.open] in a trace. *)
Fixpoint opens (t : list event) : nat :=
  match t with
  | [] => O
  | EvIDBOpen _ :: rest => S (opens rest)
  | _ :: rest => opens rest
  end.

(** The entries handed to [objectStore.put] in a trace. *)
Fixpoint written (t : list event) : list CacheEntry :=
  match t with
  | [] => []
  | EvStorePut e :: rest => e :: written rest
  | _ :: rest => written rest
  end.

(** The body reads made on the original response in a trace. *)
Definition reads_original (ev : event) : bool :=
  match ev with
  | EvReadJson Original | EvReadText Original => true
  | _ => false
  end.

(** [response.bodyUsed] of the original once a trace has run: its body was
    read before, or the trace reads it. *)
Definition bodyUsed_after (response : Response) (t : list event) : bool :=
  bodyUsed response || existsb reads_original t.

(** What a consumer that runs after a trace gets from [response.json()] on
    the original. *)
Definition downstream_json (response : Response) (t : list event) : result json :=
  if bodyUsed_after response t then Throw (TypeError "Body has already been read")
  else json_of response.

(** What a consumer that runs after a trace gets from [response.text()] on
    the original. *)
Definition downstream_text (response : Response) (t : list event) : result string :=
  if bodyUsed_after response t then Throw (TypeError "Body has already been read")
  else text_of response.

(** The attach-time task did not fail: there is nothing to await, or the
    awaited promise is fulfilled. *)
Definition ready_ok (this : Adapter) : Prop :=
  match readyPromise this with
  | Some p => outcome p = Ok tt
  | None => True
  end.

(** The request passes the explicit/filter gate. *)
Definition passes_gate (this : Adapter) (config : RequestConfig) : Prop :=
  exists explicit, isExplicitCache config = Ok explicit /\
    (explicit = true \/
     match a_filter this with
     | Some f => f config = true
     | None => True
     end).

(** The content type an extraction goes by:
    [response.headers.get('content-type')?.split(/;\s?/)[0] || ''] *)
Definition ctype (r : Response) : string :=
  default "" (before_semicolon <$> content_type r).

(** 1 when the store object holds an open promise, 0 when it does not. *)
Definition opened (w : World) : nat :=
  match dbPromise (store w) with
  | Some _ => 1
  | None => 0
  end.

(** A call of one of the store's methods. *)
Inductive StoreCall : Type :=
| CallGet (h : string)
| CallSet (e : CacheEntry)
| CallDelete (h : string)
| CallClear
| CallCleanupExpired (nowMs : num).

(** The call made in an environment; the value and the exception are
    dropped, the trace and the world are kept. *)
Definition run_call (c : Env * StoreCall) (w : World) : list event * World :=
  match c with
  | (env, CallGet h) => (Store.get env h w).1
  | (env, CallSet e) => (Store.set env e w).1
  | (env, CallDelete h) => (Store.delete env h w).1
  | (env, CallClear) => (Store.clear env w).1
  | (env, CallCleanupExpired n) => (Store.cleanupExpired env n w).1
  end.

(** Calls made one after the other, each started where the previous one
    left the store object. *)
Fixpoint run_calls (cs : list (Env * StoreCall)) (w : World) : list event * World :=
  match cs with
  | [] => ([], w)
  | c :: rest =>
      match run_call c w with
      | (t1, w1) =>
          match run_calls rest w1 with
          | (t2, w2) => ((t1 ++ t2)%list, w2)
          end
      end
  end.

(* ===================================================================== *)
(** ** Concrete configurations, responses and environments               *)
(* ===================================================================== *)

Module Examples.

(** [new RegExp(pattern, 'i').test(s)] for a pattern of plain lower-case
    letters and a lower-case subject: [s] contains [pattern]. *)
Fixpoint contains (pattern s : string) : bool :=
  String.prefix pattern s ||
  match s with
  | EmptyString => false
  | String _ rest => contains pattern rest
  end.

(** [{ cache: n }] *)
Definition cache_number (n : Z) : MetaObj := {[ "cache" := VPrim (PNum (Fin n)) ]}.

(** A request built without an API: [createPOSTRequest(url).withMeta({ cache: 60 })]. *)
Definition post_cache_60 : RequestConfig :=
  mkConfig "POST" (Some (mkMeta (cache_number 60) None)) ["json"] ["text"].

(** The same request with [withMeta({ cache: -5 })]. *)
Definition get_cache_minus_5 : RequestConfig :=
  mkConfig "GET" (Some (mkMeta (cache_number (-5)) None)) ["json"] ["text"].

(** A request that does not ask for caching at all. *)
Definition get_no_cache : RequestConfig :=
  mkConfig "GET" (Some (mkMeta ∅ None)) ["json"] ["text"].

(** [withMeta({ cache: 'abc' })] *)
Definition get_cache_abc : RequestConfig :=
  mkConfig "GET" (Some (mkMeta {[ "cache" := VStr "abc" ]} None)) ["json"] ["text"].

(** An endpoint declared with [meta: { cache: 0 }] under an API with
    [meta: { cache: 60 }]; the request's own meta carries the endpoint's
    setting. *)
Definition post_endpoint_cache_0 : RequestConfig :=
  mkConfig "POST"
    (Some (mkMeta (cache_number 0)
             (Some (mkApi (Some (cache_number 60))
                          (Some (mkEndpoint (Some (cache_number 0))))))))
    ["json"] ["text"].

(** An endpoint without a [cache] key under an API with [meta: { cache: 60 }],
    called with [withMeta({ cache: 120 })]. *)
Definition get_override_120 : RequestConfig :=
  mkConfig "GET"
    (Some (mkMeta (cache_number 120)
             (Some (mkApi (Some (cache_number 60)) (Some (mkEndpoint None))))))
    ["json"] ["text"].

(** [filter: (cfg) => cfg.method === 'GET'] *)
Definition only_get (config : RequestConfig) : bool := String.eqb (method config) "GET".

(** A 200 response with [content-type: application/json] and body [[1,2,3]]. *)
Definition ok_json : Response :=
  mkResponse true (Some "application/json; charset=utf-8") false
             (Ok (JCompound "[1,2,3]")) (Ok "[1,2,3]").

(** IndexedDB present and working; the clock reads 1000 ms. *)
Definition env_ok : Env :=
  mkEnv true (Ok tt) (fun _ => None) 1000 (fun _ => Some "h1") contains.

(** [typeof indexedDB === 'undefined'], as under server-side rendering. *)
Definition env_no_idb : Env :=
  mkEnv false (Ok tt) (fun _ => None) 1000 (fun _ => Some "h1") contains.

(** IndexedDB present, but every [get] request fires [onerror]. *)
Definition env_get_fails : Env :=
  mkEnv true (Ok tt)
        (fun op => match op with OpGet => Some (StorageIO "get") | _ => None end)
        1000 (fun _ => Some "h1") contains.

(** A world with a fresh store object for [name] and no records. *)
Definition fresh_world (name : string) : World :=
  mkWorld (mkStore name "entries" None) ∅ 0.

(** [new SimpleRequestCacheAdapter(options)] followed by
    [onAttach(factory)] on an empty database; [None] when the constructor
    throws. *)
Definition attached (env : Env) (options : option SimpleRequestCacheAdapterOptions)
    : option (list event * World * result Adapter) :=
  match constructor options with
  | Ok (this, s) => Some (onAttach env this mkFactory (mkWorld s ∅ 0))
  | Throw _ => None
  end.

(** [{ cacheName: 'c', clear: true }] *)
Definition options_clear : SimpleRequestCacheAdapterOptions :=
  mkOptions (Some "c") None (Some true).

(** [{ cacheName: 'c', filter: (cfg) => cfg.method === 'GET' }] *)
Definition options_only_get : SimpleRequestCacheAdapterOptions :=
  mkOptions (Some "c") (Some only_get) None.

(** The adapter made by [new SimpleRequestCacheAdapter()] once attached
    where IndexedDB works, and the world it was attached in. *)
Definition attached_adapter : Adapter :=
  mkAdapter None false (Some mkFactory) (Some (mkPromise 0 (Ok tt))).

Definition attached_world : World :=
  mkWorld (mkStore "apihive-request-cache" "entries" (Some (mkPromise 1 (Ok tt)))) ∅ 2.

(** The same world with a record for fingerprint [h1] that expires at
    61000 ms. *)
Definition stocked_world : World :=
  mkWorld (mkStore "apihive-request-cache" "entries" (Some (mkPromise 1 (Ok tt))))
          {[ "h1" := mkEntry "h1" (BJson (JCompound "[1,2,3]")) (Fin 1000) (Fin 61000) ]}
          2.

End Examples.

(* ===================================================================== *)
(** ** Vocabulary for the store and for the flow through the interceptors *)
(* ===================================================================== *)

(** The database of the store object can be used in this environment:
    IndexedDB is present, and the open promise the store holds is
    fulfilled, or it holds none and an open started now succeeds. *)
Definition store_ready (env : Env) (w : World) : Prop :=
  supported env = true /\
  match dbPromise (store w) with
  | Some p => outcome p = Ok tt
  | None => open_outcome env = Ok tt
  end.

(** The store object holds a fulfilled open promise. *)
Definition store_open (w : World) : Prop :=
  exists p, dbPromise (store w) = Some p /\ outcome p = Ok tt.

(** The exception a call of a store method ends with, if any. *)
Definition call_error (c : Env * StoreCall) (w : World) : option error :=
  let outcome_of {A : Type} (r : result A) : option error :=
    match r with Ok _ => None | Throw e => Some e end in
  match c with
  | (env, CallGet h) => outcome_of (Store.get env h w).2
  | (env, CallSet e) => outcome_of (Store.set env e w).2
  | (env, CallDelete h) => outcome_of (Store.delete env h w).2
  | (env, CallClear) => outcome_of (Store.clear env w).2
  | (env, CallCleanupExpired n) => outcome_of (Store.cleanupExpired env n w).2
  end.

(** What [await this.readyPromise] leaves in the trace. *)
Definition ready_trace (this : Adapter) : list event :=
  match readyPromise this with
  | Some p => [EvAwait (pid p)]
  | None => []
  end.

(** What the gate leaves in the trace: the filter is called when the
    request is not explicit and a filter is configured. *)
Definition gate_trace (this : Adapter) (explicit : bool) : list event :=
  if explicit then []
  else match a_filter this with
       | Some _ => [EvFilter]
       | None => []
       end.

(** The entry the response interceptor builds for body [b] under
    fingerprint [h], from the clock reading and the resolved TTL. *)
Definition stamped (env : Env) (cm : ExtendedCacheMeta) (h : string) (b : Body)
    : CacheEntry :=
  mkEntry h b (Fin (now env))
          (add (Fin (now env)) (mul (to_number (ttlSeconds cm)) (Fin 1000))).

(** A run started in world [w] caches [entry]: it ends normally, hands
    [entry] and nothing else to [put], and leaves the records of [w] with
    [entry] under its hash. *)
Definition caches (run : list event * World * result unit) (w : World)
    (entry : CacheEntry) : Prop :=
  run.2 = Ok tt /\
  written run.1.1 = [entry] /\
  db run.1.2 = <[hash entry := entry]> (db w).

(* ===================================================================== *)
(** ** The earlier revision of the body extraction                       *)
(* ===================================================================== *)

Module LegacyResponse.

(** [re.test(s)] for a regular expression that is a plain literal: [s]
    contains [literal]. *)
Fixpoint includes (literal s : string) : bool :=
  String.prefix literal s ||
  match s with
  | EmptyString => false
  | String _ rest => includes literal rest
  end.

(** [toLowerCase()] on one character of a header value.  A header value
    is a byte string, one character per byte (U+0000 to U+00FF): the
    letters A-Z and the Latin-1 capitals U+00C0 to U+00DE, the
    multiplication sign apart, move up by 32, the others stay. *)
Definition lower_char (c : ascii) : ascii :=
  let n := nat_of_ascii c in
  if ((65 <=? n) && (n <=? 90))%nat
     || ((192 <=? n) && (n <=? 222) && negb (n =? 215))%nat
  then ascii_of_nat (n + 32)
  else c.

(** [s.toLowerCase()] *)
Fixpoint toLowerCase (s : string) : string :=
  match s with
  | EmptyString => EmptyString
  | String c rest => String (lower_char c) (toLowerCase rest)
  end.

(** [isTextualContentType(ct)]; [None] is [null]. *)
Definition isTextualContentType (ct : option string) : bool :=
  match ct with
  | None => false
  | Some ct =>
      if String.eqb ct "" then false
      else
        let low := toLowerCase ct in
        includes "json" low || includes "text/" low ||
        (includes "application/xml" low ||
         includes "application/x-www-form-urlencoded" low)
  end.

(** [readResponseSafely(response)] of the earlier revision. *)
Definition readResponseSafely (response : Response) : M (option Body) :=
  let ct := default "" (before_semicolon <$> content_type response) in
  let* r1 :=
    try_catch
      (if includes "json" ct then
         let* copy := clone (original response) in
         let* j := read_json copy in
         ret (Some (BJson j))
       else ret None)
      (fun _ => ret None) in
  match r1 with
  | Some b => ret (Some b)
  | None =>
      let* r2 :=
        try_catch
          (if isTextualContentType (Some ct) then
             let* copy := clone (original response) in
             let* s := read_text copy in
             ret (Some (BText s))
           else ret None)
          (fun _ => ret None) in
      match r2 with
      | Some b => ret (Some b)
      | None => ret None
      end
  end.

End LegacyResponse.

(* ===================================================================== *)
(** ** More concrete inputs                                              *)
(* ===================================================================== *)

Module Cases.

(** The record of [Examples.stocked_world]. *)
Definition entry_h1 : CacheEntry :=
  mkEntry "h1" (BJson (JCompound "[1,2,3]")) (Fin 1000) (Fin 61000).

(** [createPOSTRequest(url).withMeta({ cache: 120 })] *)
Definition post_cache_120 : RequestConfig :=
  mkConfig "POST" (Some (mkMeta (Examples.cache_number 120) None)) ["json"] ["text"].

(** A POST to an endpoint without a [cache] key under an API with
    [meta: { cache: 60 }]: the request inherits the API-level setting. *)
Definition post_api_default : RequestConfig :=
  mkConfig "POST"
    (Some (mkMeta (Examples.cache_number 60)
             (Some (mkApi (Some (Examples.cache_number 60))
                          (Some (mkEndpoint (Some ∅)))))))
    ["json"] ["text"].

(** The same for a GET. *)
Definition get_api_default : RequestConfig :=
  mkConfig "GET"
    (Some (mkMeta (Examples.cache_number 60)
             (Some (mkApi (Some (Examples.cache_number 60))
                          (Some (mkEndpoint (Some ∅)))))))
    ["json"] ["text"].

(** An attached adapter with [filter: (cfg) => cfg.method === 'GET'] and
    [clear: true]. *)
Definition filtering_adapter : Adapter :=
  mkAdapter (Some Examples.only_get) true (Some mkFactory) None.

(** [new SimpleRequestCacheAdapter({ cacheName, clear: true })], not yet
    attached. *)
Definition clearing_adapter : Adapter := mkAdapter None true None None.

(** [new SimpleRequestCacheAdapter()], not yet attached. *)
Definition sweeping_adapter : Adapter := mkAdapter None false None None.

(** The clock reads 5000 ms. *)
Definition env_at_5000 : Env :=
  mkEnv true (Ok tt) (fun _ => None) 5000 (fun _ => Some "h1") Examples.contains.

(** The clock reads 61000 ms. *)
Definition env_at_61000 : Env :=
  mkEnv true (Ok tt) (fun _ => None) 61000 (fun _ => Some "h1") Examples.contains.

(** The request-hash feature is missing: [getHash] throws. *)
Definition env_no_hash : Env :=
  mkEnv true (Ok tt) (fun _ => None) 1000 (fun _ => None) Examples.contains.

(** Every [put] request fires [onerror]. *)
Definition env_put_fails : Env :=
  mkEnv true (Ok tt)
        (fun op => match op with OpPut => Some (StorageIO "put") | _ => None end)
        1000 (fun _ => Some "h1") Examples.contains.

(** The open request is blocked. *)
Definition env_open_blocked : Env :=
  mkEnv true (Throw (StorageIO "IndexedDB open blocked")) (fun _ => None) 1000
        (fun _ => Some "h1") Examples.contains.

(** A 200 response with [content-type: application/json] and body [null]. *)
Definition ok_json_null : Response :=
  mkResponse true (Some "application/json") false (Ok JNull) (Ok "null").

End Cases.

(* ===================================================================== *)
(** ** Configuration resolution                                          *)
(* ===================================================================== *)

Lemma configDoesntConform_false_iff (c : value) :
  configDoesntConform c = false <->
  c = VPrim PUndef \/ is_number c \/ carries_setting c.
Proof.
  unfold configDoesntConform, is_number, carries_setting. split.
  - destruct c as [[| |b|n]|s|o]; simpl; try discriminate; eauto.
    intros H. right; right. exists o. split; [reflexivity|].
    destruct (o !! "ttlSeconds") as [[| |b|n]|] eqn:Et; simpl in *; eauto;
    destruct (o !! "hashBody") as [[| |b'|n']|] eqn:Eh; simpl in *; eauto; discriminate.
  - intros [->|[[n ->]|(o & -> & [[n Hn]|[b Hb]])]]; simpl; try reflexivity.
    + rewrite Hn. reflexivity.
    + rewrite Hb. simpl. destruct (o !! "ttlSeconds") as [[| |b'|n']|]; reflexivity.
Qed.

Lemma resolveCacheMetaConfig_error (meta : option MetaObj) (e : error) :
  resolveCacheMetaConfig meta = Throw e -> e = InvalidCacheConfig.
Proof.
  unfold resolveCacheMetaConfig.
  destruct (jstype_eqb _ _); [discriminate|].
  destruct (configDoesntConform _); [|discriminate].
  congruence.
Qed.

(** The resolved TTL is never [undefined]: the test
    [typeof apiLevelTTL !== 'undefined'] in [isExplicitCache] always
    succeeds. *)
Lemma resolved_ttl_defined (meta : option MetaObj) (cm : ExtendedCacheMeta) :
  resolveCacheMetaConfig meta = Ok cm ->
  jstype_eqb (typeof_prim (ttlSeconds cm)) TUndefined = false.
Proof.
  unfold resolveCacheMetaConfig.
  destruct (jstype_eqb _ _); [intros [= <-]; reflexivity|].
  destruct (configDoesntConform _); [discriminate|].
  intros [= <-]. simpl.
  destruct (meta_cache meta) as [[| |b|n]|s|o]; simpl; try reflexivity.
  unfold or_else.
  destruct (default PUndef (o !! "ttlSeconds")) as [| |[|]|[z|]]; simpl; try reflexivity.
  destruct (z =? 0); reflexivity.
Qed.

Section Interceptors.
Variable env : Env.

(** A malformed [meta.cache] stops either interceptor before it touches
    the store. *)
Lemma requestInterceptor_config_error (this : Adapter) (config : RequestConfig)
    (w : World) (e : error) :
  resolveCacheMetaConfig (config_meta config) = Throw e ->
  exists t e', requestInterceptor env this config w = (t, w, Throw e') /\
               no_store_access t = true /\ (ready_ok this -> e' = InvalidCacheConfig).
Proof.
  intros H. pose proof (resolveCacheMetaConfig_error _ _ H) as ->.
  unfold requestInterceptor, ready_ok, await_opt, await, bind, lift, emit, ret.
  rewrite H.
  destruct (readyPromise this) as [[p [[]|e]]|]; simpl; eauto 6.
  do 2 eexists. repeat split. intros [=].
Qed.

Lemma responseInterceptor_config_error (this : Adapter) (response : option Response)
    (config : RequestConfig) (w : World) (e : error) :
  resolveCacheMetaConfig (config_meta config) = Throw e ->
  exists t e', responseInterceptor env this response config w = (t, w, Throw e') /\
               no_store_access t = true /\ (ready_ok this -> e' = InvalidCacheConfig).
Proof.
  intros H. pose proof (resolveCacheMetaConfig_error _ _ H) as ->.
  unfold responseInterceptor, ready_ok, await_opt, await, bind, lift, emit, ret.
  rewrite H.
  destruct (readyPromise this) as [[p [[]|e]]|]; simpl; eauto 6.
  do 2 eexists. repeat split. intros [=].
Qed.

End Interceptors.

(** C5.  [resolveCacheMetaConfig]: an absent [meta.cache] resolves to
    [{ttlSeconds: 0, hashBody: false}]; a present one that is neither a
    number nor an object carrying a numeric [ttlSeconds] or a boolean
    [hashBody] raises the configuration error, and either interceptor then
    ends with that error without a request to the store; otherwise the
    result is the normalized pair, a number [n] giving [{n, false}] and an
    object giving its [ttlSeconds] (0 when missing) and its [hashBody]
    (false when missing). *)
Theorem resolveCacheMetaConfig_cases (meta : option MetaObj) :
  (meta_cache meta = VPrim PUndef ->
     resolveCacheMetaConfig meta = Ok (mkExt (PNum (Fin 0)) false)) /\
  (meta_cache meta <> VPrim PUndef ->
   ~ is_number (meta_cache meta) -> ~ carries_setting (meta_cache meta) ->
     resolveCacheMetaConfig meta = Throw InvalidCacheConfig /\
     forall env this config response w,
       config_meta config = meta ->
       ready_ok this ->
       (exists t, requestInterceptor env this config w = (t, w, Throw InvalidCacheConfig) /\
                  no_store_access t = true) /\
       (exists t, responseInterceptor env this response config w
                    = (t, w, Throw InvalidCacheConfig) /\
                  no_store_access t = true)) /\
  (forall n, meta_cache meta = VPrim (PNum n) ->
     resolveCacheMetaConfig meta = Ok (mkExt (PNum n) false)) /\
  (forall o, meta_cache meta = VObj o -> carries_setting (VObj o) ->
     exists cm, resolveCacheMetaConfig meta = Ok cm /\
       ttlSeconds cm = or_else (default PUndef (o !! "ttlSeconds")) (PNum (Fin 0)) /\
       hashBody cm = strict_eq (default PUndef (o !! "hashBody")) (PBool true) /\
       (o !! "ttlSeconds" = None -> ttlSeconds cm = PNum (Fin 0)) /\
       (o !! "hashBody" = None -> hashBody cm = false) /\
       (forall z, o !! "ttlSeconds" = Some (PNum (Fin z)) -> ttlSeconds cm = PNum (Fin z)) /\
       (forall b, o !! "hashBody" = Some (PBool b) -> hashBody cm = b)).
Proof.
  assert (Hobj : forall o, meta_cache meta = VObj o -> carries_setting (VObj o) ->
     resolveCacheMetaConfig meta
       = Ok (mkExt (or_else (default PUndef (o !! "ttlSeconds")) (PNum (Fin 0)))
                   (strict_eq (default PUndef (o !! "hashBody")) (PBool true)))).
  { intros o Ho Hc. unfold resolveCacheMetaConfig. rewrite Ho. simpl.
    assert (configDoesntConform (VObj o) = false) as ->
      by (apply configDoesntConform_false_iff; auto).
    simpl. rewrite orb_false_r. reflexivity. }
  split; [|split; [|split]].
  - intros H. unfold resolveCacheMetaConfig. rewrite H. reflexivity.
  - intros Hp Hn Hc.
    assert (Hbad : configDoesntConform (meta_cache meta) = true).
    { destruct (configDoesntConform (meta_cache meta)) eqn:E; [reflexivity|].
      apply configDoesntConform_false_iff in E as [?|[?|?]]; contradiction. }
    assert (Hr : resolveCacheMetaConfig meta = Throw InvalidCacheConfig).
    { unfold resolveCacheMetaConfig. rewrite Hbad.
      destruct (meta_cache meta) as [[| |b|n]|s|o]; simpl; try reflexivity.
      contradiction. }
    split; [exact Hr|].
    intros env this config response w <- Hready. split.
    + destruct (requestInterceptor_config_error env this config w _ Hr)
        as (t & e' & Hrun & Hns & He). exists t. rewrite Hrun, (He Hready). auto.
    + destruct (responseInterceptor_config_error env this response config w _ Hr)
        as (t & e' & Hrun & Hns & He). exists t. rewrite Hrun, (He Hready). auto.
  - intros n H. unfold resolveCacheMetaConfig. rewrite H. reflexivity.
  - intros o Ho Hc. eexists. split; [exact (Hobj o Ho Hc)|]. simpl.
    split; [reflexivity|].
    split; [reflexivity|].
    split; [intros ->; reflexivity|].
    split; [intros ->; reflexivity|].
    split.
    + intros z ->. simpl. unfold or_else. simpl.
      destruct (Z.eqb_spec z 0) as [->|]; reflexivity.
    + intros b ->. simpl. destruct b; reflexivity.
Qed.

Lemma resolveCacheMetaConfig_cases_witness :
  resolveCacheMetaConfig (config_meta Examples.get_cache_abc) = Throw InvalidCacheConfig /\
  resolveCacheMetaConfig (Some (Examples.cache_number 60))
    = Ok (mkExt (PNum (Fin 60)) false).
Proof.
  split.
  - apply (resolveCacheMetaConfig_cases (config_meta Examples.get_cache_abc)).
    + vm_compute. discriminate.
    + intros [n H]. vm_compute in H. discriminate.
    + intros (o & H & _). vm_compute in H. discriminate.
  - apply (resolveCacheMetaConfig_cases (Some (Examples.cache_number 60))).
    vm_compute. reflexivity.
Defined.

(* ===================================================================== *)
(** ** The explicit-override rule                                        *)
(* ===================================================================== *)

(** With a [cache] key on the endpoint, the last two lines of
    [isExplicitCache] are never reached. *)
Lemma isExplicitCache_with_key (config : RequestConfig) :
  hasOwnProperty (default ∅ (config_endpointMeta config)) "cache" = true ->
  isExplicitCache config <> Ok false.
Proof.
  intros H. unfold isExplicitCache, rbind. rewrite H.
  destruct (resolveCacheMetaConfig (config_apiMeta config)); [|discriminate].
  destruct (resolveCacheMetaConfig (config_meta config)); discriminate.
Qed.

(** Without a [cache] key on the endpoint, the answer is the comparison of
    the two resolved TTLs. *)
Lemma isExplicitCache_without_key (config : RequestConfig) (apiLevel current : ExtendedCacheMeta) :
  hasOwnProperty (default ∅ (config_endpointMeta config)) "cache" = false ->
  resolveCacheMetaConfig (config_apiMeta config) = Ok apiLevel ->
  resolveCacheMetaConfig (config_meta config) = Ok current ->
  isExplicitCache config = Ok (negb (strict_eq (ttlSeconds current) (ttlSeconds apiLevel))).
Proof.
  intros Hk Ha Hc. unfold isExplicitCache, rbind. rewrite Ha, Hc, Hk.
  rewrite (resolved_ttl_defined _ _ Ha). simpl.
  destruct (strict_eq _ _); reflexivity.
Qed.

(** When the gate is not consulted or lets the request through. *)
Lemma vetoed_explicit (this : Adapter) (config : RequestConfig) (w : World) :
  vetoed this true config w = ([], w, Ok false).
Proof. reflexivity. Qed.

(** C8.  When the endpoint definition's meta carries a [cache] key,
    whatever its value, [isExplicitCache] never answers false: it answers
    true as soon as the API-level and the request-level settings resolve,
    and the filter predicate is then not consulted. *)
Theorem isExplicitCache_endpoint_key (config : RequestConfig) (endpointMeta : MetaObj)
    (v : value) :
  config_endpointMeta config = Some endpointMeta ->
  endpointMeta !! "cache" = Some v ->
  isExplicitCache config <> Ok false /\
  (forall apiLevel current,
     resolveCacheMetaConfig (config_apiMeta config) = Ok apiLevel ->
     resolveCacheMetaConfig (config_meta config) = Ok current ->
     isExplicitCache config = Ok true /\
     forall this w, vetoed this true config w = ([], w, Ok false)).
Proof.
  intros He Hv.
  assert (Hk : hasOwnProperty (default ∅ (config_endpointMeta config)) "cache" = true).
  { rewrite He. simpl. unfold hasOwnProperty. rewrite Hv.
    apply bool_decide_eq_true. eauto. }
  split; [apply isExplicitCache_with_key; exact Hk|].
  intros apiLevel current Ha Hc. split; [|intros; apply vetoed_explicit].
  unfold isExplicitCache, rbind. rewrite Ha, Hc, Hk. reflexivity.
Qed.

Lemma isExplicitCache_endpoint_key_witness :
  isExplicitCache Examples.post_endpoint_cache_0 = Ok true.
Proof.
  apply (isExplicitCache_endpoint_key Examples.post_endpoint_cache_0
           (Examples.cache_number 0) (VPrim (PNum (Fin 0)))
           eq_refl eq_refl)
    with (apiLevel := mkExt (PNum (Fin 60)) false) (current := mkExt (PNum (Fin 0)) false).
  - vm_compute. reflexivity.
  - vm_compute. reflexivity.
Defined.

(** C1, as the adapter has it.  Without a [cache] key on the endpoint and
    with settings that resolve, [isExplicitCache] answers true exactly when
    the request's effective TTL differs from the API-level TTL, where an API
    without a cache setting counts as TTL 0: under such an API a request is
    explicit as soon as its own TTL is truthy, and not explicit when its own
    TTL is 0. *)
Theorem isExplicitCache_no_endpoint_key (config : RequestConfig)
    (apiLevel current : ExtendedCacheMeta) :
  hasOwnProperty (default ∅ (config_endpointMeta config)) "cache" = false ->
  resolveCacheMetaConfig (config_apiMeta config) = Ok apiLevel ->
  resolveCacheMetaConfig (config_meta config) = Ok current ->
  isExplicitCache config
    = Ok (negb (strict_eq (ttlSeconds current) (ttlSeconds apiLevel))) /\
  (meta_cache (config_apiMeta config) = VPrim PUndef ->
     ttlSeconds apiLevel = PNum (Fin 0) /\
     (truthy (ttlSeconds current) = true -> isExplicitCache config = Ok true) /\
     (ttlSeconds current = PNum (Fin 0) -> isExplicitCache config = Ok false)).
Proof.
  intros Hk Ha Hc.
  pose proof (isExplicitCache_without_key config apiLevel current Hk Ha Hc) as Hex.
  split; [exact Hex|].
  intros Hu.
  assert (Hz : ttlSeconds apiLevel = PNum (Fin 0)).
  { revert Ha. unfold resolveCacheMetaConfig. rewrite Hu. simpl. intros [= <-]. reflexivity. }
  split; [exact Hz|]. rewrite Hex, Hz. split.
  - destruct (ttlSeconds current) as [| |[|]|[z|]]; simpl; try discriminate; try reflexivity.
    destruct (z =? 0); [discriminate|reflexivity].
  - intros ->. reflexivity.
Qed.

Lemma isExplicitCache_no_endpoint_key_witness :
  isExplicitCache Examples.get_override_120 = Ok true.
Proof.
  refine (proj1 (isExplicitCache_no_endpoint_key Examples.get_override_120
                   (mkExt (PNum (Fin 60)) false) (mkExt (PNum (Fin 120)) false) _ _ _));
    vm_compute; reflexivity.
Defined.

(** A request with [meta.cache = 60] built without any API has no endpoint
    [cache] key and no API-level cache setting, and yet [isExplicitCache]
    answers true: the rule as worded fails on it. *)
Lemma isExplicitCache_explicit_without_api_setting :
  ~ explicit_only_against_api_setting Examples.post_cache_60.
Proof.
  intros H. destruct H as [Habs _]; [reflexivity|reflexivity|].
  apply Habs. reflexivity.
Qed.

(** The consequence for the filter: an adapter that admits only GET still
    looks up, and then caches, this POST, without calling the filter. *)
Example filter_not_consulted_without_api_setting :
  match Examples.attached Examples.env_ok (Some Examples.options_only_get) with
  | Some (_, w, Ok this) =>
      (requestInterceptor Examples.env_ok this Examples.post_cache_60 w).1.1
        = [EvAwait 0; EvFinaliseURL; EvGetHash false; EvAwait 1; EvStoreGet "h1"] /\
      written (responseInterceptor Examples.env_ok this (Some Examples.ok_json)
                                   Examples.post_cache_60 w).1.1
        = [mkEntry "h1" (BJson (JCompound "[1,2,3]")) (Fin 1000) (Fin 61000)]
  | _ => False
  end.
Proof. vm_compute. split; reflexivity. Qed.

(** The earlier revision read [apiMeta?.cache] itself: with no API-level
    setting the request was never explicit. *)
Lemma legacy_isExplicitCache_without_api_setting (currentTTL : prim) :
  Legacy.isExplicitCache PUndef false currentTTL = false.
Proof. reflexivity. Qed.

(* ===================================================================== *)
(** ** Construction                                                      *)
(* ===================================================================== *)

(** C10.  Constructed without an argument, the adapter uses the store
    named ['apihive-request-cache']; constructed with an options object
    that has no [cacheName], whatever its [filter] and [clear], the
    constructor throws. *)
Theorem constructor_default_cacheName :
  constructor None
    = Ok (mkAdapter None false None None,
          mkStore "apihive-request-cache" "entries" None) /\
  (forall f c, constructor (Some (mkOptions None f c)) = Throw EmptyCacheName).
Proof. split; [reflexivity|]. intros f c. reflexivity. Qed.

(* ===================================================================== *)
(** ** Failures of the store and the interceptors                        *)
(* ===================================================================== *)

Ltac unfold_store :=
  unfold Store.get, Store.set, Store.clear, Store.delete, Store.cleanupExpired,
    Store.tx, Store.open, Store.request, await, bind, lift, emit, ret, throw,
    get_world, put_world.

Lemma isExplicitCache_error (config : RequestConfig) (e : error) :
  isExplicitCache config = Throw e -> e = InvalidCacheConfig.
Proof.
  unfold isExplicitCache, rbind.
  destruct (resolveCacheMetaConfig (config_apiMeta config)) eqn:Ea;
    [|intros [= <-]; eapply resolveCacheMetaConfig_error; eassumption].
  destruct (resolveCacheMetaConfig (config_meta config)) eqn:Ec;
    [|intros [= <-]; eapply resolveCacheMetaConfig_error; eassumption].
  destruct (hasOwnProperty _ _); [discriminate|].
  destruct (_ && _); discriminate.
Qed.

Ltac unfold_run :=
  unfold requestInterceptor, responseInterceptor, readResponseSafely, vetoed, tryGetHash,
    log_error, clone, read_json, read_text, original, await_opt, await,
    Store.get, Store.set, Store.tx, Store.open,
    Store.request, try_catch, bind, lift, emit, ret, throw, get_world, put_world in *.

Ltac break_match :=
  match goal with
  | |- context [match ?x with _ => _ end] => destruct x eqn:?
  | H : context [match ?x with _ => _ end] |- _ => destruct x eqn:?
  end.

Ltac break_all := repeat (break_match; simpl in *; try discriminate; try congruence).

(** Once the attach-time task has not failed and the adapter is attached,
    the only exception that leaves the request interceptor is the
    configuration error. *)
Lemma requestInterceptor_only_config_errors (env : Env) (this : Adapter)
    (config : RequestConfig) (w w' : World) (t : list event) (e : error) :
  ready_ok this -> factory this <> None ->
  requestInterceptor env this config w = (t, w', Throw e) ->
  e = InvalidCacheConfig.
Proof.
  unfold ready_ok. intros Hr Hf.
  destruct (factory this) as [f|] eqn:Ef; [clear Hf|congruence].
  unfold_run. rewrite Ef.
  destruct (readyPromise this) as [[p o]|]; simpl in *; subst;
  (destruct (resolveCacheMetaConfig (config_meta config)) as [cm|e1] eqn:E1; simpl;
   [|intros [= <- <- <-]; eapply resolveCacheMetaConfig_error; eassumption]);
  (destruct (truthy (ttlSeconds cm)); simpl; [|discriminate]);
  (destruct (isExplicitCache config) as [[|]|e2] eqn:E2; simpl;
   [| |intros [= <- <- <-]; eapply isExplicitCache_error; eassumption]).
  all: break_all.
Qed.

(** The same for the response interceptor. *)
Lemma responseInterceptor_only_config_errors (env : Env) (this : Adapter)
    (response : option Response) (config : RequestConfig) (w w' : World)
    (t : list event) (e : error) :
  ready_ok this -> factory this <> None ->
  responseInterceptor env this response config w = (t, w', Throw e) ->
  e = InvalidCacheConfig.
Proof.
  unfold ready_ok. intros Hr Hf.
  destruct (factory this) as [f|] eqn:Ef; [clear Hf|congruence].
  unfold_run. rewrite Ef.
  destruct (readyPromise this) as [[p o]|]; simpl in *; subst;
  (destruct (resolveCacheMetaConfig (config_meta config)) as [cm|e1] eqn:E1; simpl;
   [|intros [= <- <- <-]; eapply resolveCacheMetaConfig_error; eassumption]);
  (destruct (truthy (ttlSeconds cm)); simpl; [|discriminate]);
  (destruct (isExplicitCache config) as [[|]|e2] eqn:E2; simpl;
   [| |intros [= <- <- <-]; eapply isExplicitCache_error; eassumption]).
  all: break_all.
Qed.

(** In the sweep configuration the promise of [cleanupExpired] is kept in
    [readyPromise]; when it is rejected, both interceptors rethrow its
    error at their first line, whatever the request. *)
Lemma interceptors_rethrow_attach_failure (env : Env) (this : Adapter)
    (p : Promise unit) (e : error) (response : option Response)
    (config : RequestConfig) (w : World) :
  readyPromise this = Some p -> outcome p = Throw e ->
  requestInterceptor env this config w = ([EvAwait (pid p)], w, Throw e) /\
  responseInterceptor env this response config w = ([EvAwait (pid p)], w, Throw e).
Proof.
  intros Hp Ho. unfold requestInterceptor, responseInterceptor.
  rewrite Hp. unfold await_opt, await, bind, emit, lift. rewrite Ho. split; reflexivity.
Qed.

(** Where IndexedDB is missing, the sweep started by [onAttach] fails and
    the adapter keeps its rejected promise. *)
Lemma onAttach_sweep_without_indexedDB (env : Env) (this : Adapter)
    (f : HTTPRequestFactory) (w : World) :
  clearOnAttach this = false -> supported env = false ->
  exists this1,
    onAttach env this f w = ([EvStart (next_pid w)],
                             mkWorld (store w) (db w) (S (next_pid w)), Ok this1) /\
    readyPromise this1 = Some (mkPromise (next_pid w) (Throw StorageUnavailable)).
Proof.
  intros Hc Hs. unfold onAttach, try_catch, async_call. unfold bind at 1. simpl.
  rewrite Hc. unfold_store. simpl. rewrite Hs. simpl. eauto.
Qed.

(** C2.  An adapter constructed without options sweeps on attach; where
    IndexedDB is missing the sweep fails, and then the request interceptor
    and the response interceptor both end with the storage error, even for
    a request that does not ask for caching: the failure of the attach-time
    sweep is not isolated from the request/response flow. *)
Theorem rejected_sweep_aborts_interceptors :
  match Examples.attached Examples.env_no_idb None with
  | Some (_, w, Ok this) =>
      (requestInterceptor Examples.env_no_idb this Examples.get_no_cache w).2
        = Throw StorageUnavailable /\
      (responseInterceptor Examples.env_no_idb this (Some Examples.ok_json)
                           Examples.get_no_cache w).2
        = Throw StorageUnavailable
  | _ => False
  end.
Proof. vm_compute. split; reflexivity. Qed.

(* ===================================================================== *)
(** ** The attach-time task and the first store access                   *)
(* ===================================================================== *)

(** In the sweep configuration, [onAttach] keeps the promise of the sweep
    it starts. *)
Lemma onAttach_sweep (env : Env) (this : Adapter) (f : HTTPRequestFactory) (w : World) :
  clearOnAttach this = false ->
  exists t w1 this1 r,
    onAttach env this f w = (EvStart (next_pid w) :: t, w1, Ok this1) /\
    readyPromise this1 = Some (mkPromise (next_pid w) r) /\
    factory this1 = Some f.
Proof.
  intros Hc. unfold onAttach, try_catch, bind, async_call, ret. simpl. rewrite Hc.
  destruct (Store.cleanupExpired env (Fin (now env)) _) as [[t w1] r].
  simpl. rewrite app_nil_r. eauto 8.
Qed.

Lemma await_bind_trace {A : Type} (p : Promise unit) (k : unit -> M A) (w : World) :
  exists rest, (bind (await p) k w).1.1 = EvAwait (pid p) :: rest.
Proof.
  unfold await, bind, emit, lift.
  destruct (outcome p) as [[]|e]; simpl; [|eauto].
  destruct (k tt w) as [[t2 w2] r]; simpl; eauto.
Qed.

(** An interceptor of an adapter holding promise [p] in [readyPromise]
    awaits [p] before anything else. *)
Lemma interceptors_await_readyPromise (env : Env) (this : Adapter) (p : Promise unit)
    (response : option Response) (config : RequestConfig) (w : World) :
  readyPromise this = Some p ->
  awaits_before_access (pid p) (requestInterceptor env this config w).1.1 = true /\
  awaits_before_access (pid p) (responseInterceptor env this response config w).1.1 = true.
Proof.
  intros Hp. unfold requestInterceptor, responseInterceptor. rewrite Hp.
  unfold await_opt. split.
  - match goal with |- context [bind (await p) ?k w] =>
      destruct (await_bind_trace p k w) as [rest ->] end.
    simpl. rewrite Nat.eqb_refl. reflexivity.
  - match goal with |- context [bind (await p) ?k w] =>
      destruct (await_bind_trace p k w) as [rest ->] end.
    simpl. rewrite Nat.eqb_refl. reflexivity.
Qed.

(** In the sweep configuration every interceptor invocation awaits the
    sweep started by [onAttach] before its first store access. *)
Lemma sweep_is_awaited (env : Env) (this : Adapter) (f : HTTPRequestFactory) (w : World) :
  clearOnAttach this = false ->
  exists t w1 this1,
    onAttach env this f w = (EvStart (next_pid w) :: t, w1, Ok this1) /\
    forall env' response config w',
      awaits_before_access (next_pid w)
        (requestInterceptor env' this1 config w').1.1 = true /\
      awaits_before_access (next_pid w)
        (responseInterceptor env' this1 response config w').1.1 = true.
Proof.
  intros Hc. destruct (onAttach_sweep env this f w Hc) as (t & w1 & this1 & r & Hrun & Hp & _).
  exists t, w1, this1. split; [exact Hrun|].
  intros env' response config w'.
  exact (interceptors_await_readyPromise env' this1 _ response config w' Hp).
Qed.

(** C3.  With [clear: true], [onAttach] starts the clear (promise 0) and
    keeps nothing in [readyPromise]; the request interceptor of the
    attached adapter then reaches [objectStore.get] without having awaited
    promise 0: the clear is not awaited before the first store access. *)
Theorem clear_on_attach_is_not_awaited :
  match Examples.attached Examples.env_ok (Some Examples.options_clear) with
  | Some (t_attach, w, Ok this) =>
      t_attach = [EvStart 0; EvIDBOpen "c"; EvAwait 1; EvStoreClear] /\
      readyPromise this = None /\
      (requestInterceptor Examples.env_ok this Examples.post_cache_60 w).1.1
        = [EvFinaliseURL; EvGetHash false; EvAwait 1; EvStoreGet "h1"] /\
      awaits_before_access 0
        (requestInterceptor Examples.env_ok this Examples.post_cache_60 w).1.1 = false /\
      awaits_before_access 0
        (responseInterceptor Examples.env_ok this (Some Examples.ok_json)
                             Examples.post_cache_60 w).1.1 = false
  | _ => False
  end.
Proof. vm_compute. repeat split; reflexivity. Qed.

(* ===================================================================== *)
(** ** The pieces the interceptors are made of                           *)
(* ===================================================================== *)

Lemma written_app (t1 t2 : list event) :
  written (t1 ++ t2) = (written t1 ++ written t2)%list.
Proof.
  induction t1 as [|ev t1 IH]; [reflexivity|].
  destruct ev; simpl; rewrite IH; reflexivity.
Qed.

(** A lookup changes no record and writes nothing. *)
Lemma Store_get_facts (env : Env) (h : string) (w : World) :
  db (Store.get env h w).1.2 = db w /\
  written (Store.get env h w).1.1 = [] /\
  (forall entry, (Store.get env h w).2 = Ok entry -> entry = db w !! h).
Proof.
  unfold_store.
  destruct (supported env); simpl; [|repeat split; discriminate].
  destruct (dbPromise (store w)) as [[q [[]|e]]|]; simpl;
    try (repeat split; discriminate);
    try (destruct (open_outcome env) as [[]|e]; simpl; try (repeat split; discriminate));
    destruct (request_error env OpGet); simpl; repeat split; congruence.
Qed.

(** [set(entry)] hands [entry], and nothing else, to [put]. *)
Lemma Store_set_facts (env : Env) (entry e : CacheEntry) (w : World) :
  In e (written (Store.set env entry w).1.1) -> e = entry.
Proof.
  unfold_store.
  destruct (supported env); simpl; [|tauto].
  destruct (dbPromise (store w)) as [[q [[]|e0]]|]; simpl;
    try tauto;
    try (destruct (open_outcome env) as [[]|e0]; simpl; try tauto);
    destruct (request_error env OpPut); simpl; intuition congruence.
Qed.

(** [set(entry)] reads no response body. *)
Lemma Store_set_reads_nothing (env : Env) (entry : CacheEntry) (w : World) :
  forallb (fun ev => negb (reads_original ev)) (Store.set env entry w).1.1 = true.
Proof.
  unfold_store.
  destruct (supported env); simpl; [|reflexivity].
  destruct (dbPromise (store w)) as [[q [[]|e0]]|]; simpl;
    try reflexivity;
    try (destruct (open_outcome env) as [[]|e0]; simpl; try reflexivity);
    destruct (request_error env OpPut); reflexivity.
Qed.

Section Extraction.
Variable env : Env.
Variable response : Response.
Variable config : RequestConfig.

Let ct : string := default "" (before_semicolon <$> content_type response).

(** What [readResponseSafely] does: it never throws, touches neither the
    store nor the original body, and returns the JSON value for JSON-typed
    content that parses, the text for content that is text-typed and not
    JSON-typed, and null when the content type is neither. *)
Lemma readResponseSafely_facts (w : World) :
  exists t b,
    readResponseSafely env response config w = (t, w, Ok b) /\
    written t = [] /\
    no_store_access t = true /\
    forallb (fun ev => negb (reads_original ev)) t = true /\
    (forall j, isJSONResponse env config ct = true -> bodyUsed response = false ->
               json_of response = Ok j -> b = Some (BJson j)) /\
    (forall s, isJSONResponse env config ct = false ->
               isTextResponse env config ct = true -> bodyUsed response = false ->
               text_of response = Ok s -> b = Some (BText s)) /\
    (isJSONResponse env config ct = false -> isTextResponse env config ct = false ->
       b = None /\ t = []) /\
    (forall x, b = Some x ->
       bodyUsed response = false /\
       ((isJSONResponse env config ct = true /\
         exists j, json_of response = Ok j /\ x = BJson j) \/
        (isTextResponse env config ct = true /\
         exists s, text_of response = Ok s /\ x = BText s))).
Proof.
  unfold readResponseSafely, clone, read_json, read_text, original,
    try_catch, bind, lift, emit, ret, throw.
  fold ct.
  destruct (isJSONResponse env config ct), (isTextResponse env config ct),
    (bodyUsed response) eqn:Hused, (json_of response) as [j0|e1] eqn:Hjson,
    (text_of response) as [s0|e2] eqn:Htext;
    repeat (progress (cbn [content identity app]; rewrite ?Hused, ?Hjson, ?Htext)).
  all: do 2 eexists; (split; [reflexivity|]).
  all: repeat split; intros; simplify_eq; try congruence.
  all: try (left; split; [reflexivity|]; eexists; split; [eassumption|reflexivity]).
  all: try (right; split; [reflexivity|]; eexists; split; [eassumption|reflexivity]).
  all: try (left; split; [reflexivity|]; eexists; split; reflexivity).
  all: try (right; split; [reflexivity|]; eexists; split; reflexivity).
Qed.

End Extraction.

(** One step through an interceptor: the store methods and the body
    extraction are taken as wholes, through the facts above; otherwise the
    innermost decision is split. *)
Ltac unfold_interceptor :=
  unfold requestInterceptor, responseInterceptor, vetoed, tryGetHash, log_error,
    await_opt, await, try_catch, bind, lift, emit, ret, throw.

Ltac step :=
  match goal with
  | |- context [readResponseSafely ?env ?r ?c ?w] =>
      let t := fresh "t" in
      let b := fresh "b" in
      let H := fresh "Hread" in
      destruct (readResponseSafely_facts env r c w)
        as (t & b & H & ?Hwritten & ?Hquiet & ?Hclone & ?Hjson & ?Htext & ?Hskip & ?Hsome);
      rewrite H
  | |- context [Store.set ?env ?e ?w] =>
      let H := fresh "Hset" in
      let H' := fresh "Hsetq" in
      pose proof (fun x => Store_set_facts env e x w) as H;
      pose proof (Store_set_reads_nothing env e w) as H';
      destruct (Store.set env e w) as [[? ?] [[]|?]]
  | |- context [Store.get ?env ?h ?w] =>
      let H := fresh "Hget" in
      pose proof (Store_get_facts env h w) as H;
      destruct (Store.get env h w) as [[? ?] [?|?]]
  | |- context [match ?x with _ => _ end] =>
      lazymatch x with
      | context [match _ with _ => _ end] => fail
      | _ => destruct x eqn:?
      end
  end; cbn beta iota delta [fst snd negb app written].

(* ===================================================================== *)
(** ** Lifetime of the written entries                                   *)
(* ===================================================================== *)

(** What the response interceptor hands to [put]: at most one entry, made
    from the clock reading and the TTL resolved in this very call. *)
Lemma written_entry_fields (env : Env) (this : Adapter) (response : option Response)
    (config : RequestConfig) (w : World) (cm : ExtendedCacheMeta) (e : CacheEntry) :
  resolveCacheMetaConfig (config_meta config) = Ok cm ->
  In e (written (responseInterceptor env this response config w).1.1) ->
  createdAt e = Fin (now env) /\
  expiresAt e = add (Fin (now env)) (mul (to_number (ttlSeconds cm)) (Fin 1000)) /\
  getHash env (hashBody cm) = Some (hash e).
Proof.
  intros Hres. unfold_interceptor. rewrite Hres.
  cbn beta iota delta [fst snd negb app written].
  repeat (step; cbn [In]; try tauto).
  all: rewrite ?written_app; cbn [written app]; rewrite ?written_app; cbn [written app];
    rewrite ?Hwritten, ?app_nil_r; cbn [app In]; try tauto.
  all: intros Hin; apply Hset in Hin; subst e; cbn; auto.
Qed.

(** For a positive TTL the entry expires after it was created (the clock
    reading, [ttl * 1000] and their sum being integers that a double holds
    exactly). *)
Lemma written_entry_positive_ttl (env : Env) (this : Adapter) (response : option Response)
    (config : RequestConfig) (w : World) (hb : bool) (ttl : Z) (e : CacheEntry) :
  resolveCacheMetaConfig (config_meta config) = Ok (mkExt (PNum (Fin ttl)) hb) ->
  0 < ttl ->
  safe_integer (now env) -> safe_integer (ttl * 1000) ->
  safe_integer (now env + ttl * 1000) ->
  In e (written (responseInterceptor env this response config w).1.1) ->
  createdAt e = Fin (now env) /\
  expiresAt e = Fin (now env + ttl * 1000) /\
  gt (expiresAt e) (createdAt e) = true.
Proof.
  intros Hres Hpos _ _ _ Hin.
  destruct (written_entry_fields env this response config w _ e Hres Hin) as (Hc & He & _).
  simpl in He. rewrite Hc, He. repeat split. simpl. apply Z.ltb_lt. lia.
Qed.

(** The request interceptor reads the store and never writes it: the
    records, and with them each stored [expiresAt], are the same after the
    call, whatever the configuration of the request. *)
Lemma requestInterceptor_keeps_records (env : Env) (this : Adapter)
    (config : RequestConfig) (w : World) :
  db (requestInterceptor env this config w).1.2 = db w.
Proof.
  unfold_interceptor.
  repeat (step; try reflexivity).
  all: destruct Hget as (Hdb & _); exact Hdb.
Qed.

(** The earlier revision clamped the TTL: [resolveTTLSeconds] never
    returned a negative number. *)
Lemma legacy_resolveTTLSeconds_nonnegative (cache : prim) :
  exists z, Legacy.resolveTTLSeconds cache = Fin z /\ 0 <= z.
Proof.
  unfold Legacy.resolveTTLSeconds, or_else.
  destruct cache as [| |[|]|[z|]]; simpl; try (exists 0; split; [reflexivity|lia]).
  - exists 1. split; [reflexivity|lia].
  - destruct (Z.eqb_spec z 0) as [->|Hz]; simpl; [exists 0; split; [reflexivity|lia]|].
    destruct (Z.ltb_spec 0 z); [exists z|exists 0]; split; try reflexivity; lia.
Qed.

(** C4.  A request with [meta.cache = -5] resolves to the truthy TTL -5;
    its successful JSON response is written with [createdAt = 1000] and
    [expiresAt = 1000 + (-5)*1000 = -4000]: the stored entry does not
    satisfy [expiresAt > createdAt]. *)
Theorem negative_ttl_entry_is_born_expired :
  match Examples.attached Examples.env_ok None with
  | Some (_, w, Ok this) =>
      resolveCacheMetaConfig (config_meta Examples.get_cache_minus_5)
        = Ok (mkExt (PNum (Fin (-5))) false) /\
      written (responseInterceptor Examples.env_ok this (Some Examples.ok_json)
                                   Examples.get_cache_minus_5 w).1.1
        = [mkEntry "h1" (BJson (JCompound "[1,2,3]")) (Fin 1000) (Fin (-4000))] /\
      gt (Fin (-4000)) (Fin 1000) = false
  | _ => False
  end.
Proof. vm_compute. repeat split; reflexivity. Qed.

(* ===================================================================== *)
(** ** The lookup of the request interceptor                             *)
(* ===================================================================== *)

(** Past the gates, the request interceptor is the lookup followed by the
    decision on its answer. *)
Lemma requestInterceptor_past_gates (env : Env) (this : Adapter) (config : RequestConfig)
    (w : World) (cm : ExtendedCacheMeta) (h : string) (f : HTTPRequestFactory) :
  ready_ok this -> factory this = Some f ->
  resolveCacheMetaConfig (config_meta config) = Ok cm ->
  truthy (ttlSeconds cm) = true ->
  passes_gate this config ->
  getHash env (hashBody cm) = Some h ->
  (requestInterceptor env this config w).2 =
    match (Store.get env h w).2 with
    | Ok (Some e) =>
        if gt (expiresAt e) (Fin (now env)) then Ok (Some (body e)) else Ok None
    | Ok None => Ok None
    | Throw _ => Ok None
    end /\
  forall err, (Store.get env h w).2 = Throw err ->
    In (EvLogError "Failed to read cache entry" err)
       (requestInterceptor env this config w).1.1.
Proof.
  unfold ready_ok, passes_gate.
  intros Hready Hf Hres Httl (explicit & Hex & Hgate) Hhash.
  unfold_interceptor. rewrite Hres, Hex, Httl, Hf, Hhash.
  cbn beta iota delta [fst snd negb app].
  destruct (readyPromise this) as [[p o]|]; simpl in Hready; subst;
    (destruct explicit;
     [|destruct Hgate as [Hx|Hx]; [discriminate|];
       destruct (a_filter this) as [g|]; [rewrite Hx|]]);
    cbn beta iota delta [fst snd negb app pid outcome];
    destruct (Store.get env h w) as [[t1 w1] [[e|]|err]];
    cbn beta iota delta [fst snd negb app];
    try destruct (gt (expiresAt e) (Fin (now env)));
    cbn beta iota delta [fst snd negb app];
    (split; [reflexivity|]); intros err' [=]; subst.
  all: rewrite ?in_app_iff; cbn [In]; rewrite ?in_app_iff; cbn [In];
    rewrite ?in_app_iff; cbn [In]; auto 10.
Qed.

(** C6.  For a request with a truthy resolved TTL that passes the
    explicit/filter gate and has a fingerprint [h], on an attached adapter
    whose attach-time task did not fail: the request interceptor returns the
    stored body exactly when the lookup of [h] yields an entry with
    [expiresAt > now]; when the entry is expired or absent, or the lookup
    fails, it returns nothing, and a failed lookup is logged and not
    rethrown.  The lookup answers with the record stored under [h]. *)
Theorem requestInterceptor_hit_iff_fresh_entry (env : Env) (this : Adapter)
    (config : RequestConfig) (w : World) (cm : ExtendedCacheMeta) (h : string) :
  ready_ok this -> factory this <> None ->
  resolveCacheMetaConfig (config_meta config) = Ok cm ->
  truthy (ttlSeconds cm) = true ->
  passes_gate this config ->
  getHash env (hashBody cm) = Some h ->
  let run := requestInterceptor env this config w in
  let lookup := (Store.get env h w).2 in
  (forall b, run.2 = Ok (Some b) <->
     exists e, lookup = Ok (Some e) /\ gt (expiresAt e) (Fin (now env)) = true /\
               body e = b) /\
  (forall e, lookup = Ok (Some e) -> gt (expiresAt e) (Fin (now env)) = false ->
     run.2 = Ok None) /\
  (lookup = Ok None -> run.2 = Ok None) /\
  (forall err, lookup = Throw err ->
     run.2 = Ok None /\ In (EvLogError "Failed to read cache entry" err) run.1.1) /\
  (forall entry, lookup = Ok entry -> entry = db w !! h).
Proof.
  intros Hready Hf Hres Httl Hgate Hhash run lookup.
  destruct (factory this) as [f|] eqn:Ef; [clear Hf|congruence].
  destruct (requestInterceptor_past_gates env this config w cm h f
              Hready Ef Hres Httl Hgate Hhash) as (Hrun & Hlog).
  fold run lookup in Hrun, Hlog.
  repeat split.
  - rewrite Hrun. intros Hb.
    destruct lookup as [[e|]|err]; try discriminate.
    destruct (gt (expiresAt e) (Fin (now env))) eqn:Hgt; [|discriminate].
    injection Hb as <-. eauto.
  - intros (e & Hl & Hgt & <-). rewrite Hrun, Hl, Hgt. reflexivity.
  - intros e Hl Hgt. rewrite Hrun, Hl, Hgt. reflexivity.
  - intros Hl. rewrite Hrun, Hl. reflexivity.
  - rewrite Hrun, H. reflexivity.
  - apply Hlog. assumption.
  - intros entry Hl. apply (Store_get_facts env h w). exact Hl.
Qed.

Lemma attached_adapter_is_attached :
  Examples.attached Examples.env_ok None
    = Some ([EvStart 0; EvIDBOpen "apihive-request-cache"; EvAwait 1;
             EvStoreSweep (Fin 1000)],
            Examples.attached_world, Ok Examples.attached_adapter).
Proof. vm_compute. reflexivity. Qed.

(** A [get] request that fires [onerror]: the interceptor logs the error
    and returns nothing. *)
Example failed_lookup_is_logged :
  requestInterceptor Examples.env_get_fails Examples.attached_adapter
                     Examples.post_cache_60 Examples.stocked_world
    = ([EvAwait 0; EvFinaliseURL; EvGetHash false; EvAwait 1; EvStoreGet "h1";
        EvLogError "Failed to read cache entry" (StorageIO "get")],
       Examples.stocked_world, Ok None).
Proof. vm_compute. reflexivity. Qed.

Lemma requestInterceptor_hit_iff_fresh_entry_witness :
  (requestInterceptor Examples.env_ok Examples.attached_adapter Examples.post_cache_60
                      Examples.stocked_world).2
    = Ok (Some (BJson (JCompound "[1,2,3]"))).
Proof.
  apply (requestInterceptor_hit_iff_fresh_entry Examples.env_ok Examples.attached_adapter
           Examples.post_cache_60 Examples.stocked_world
           (mkExt (PNum (Fin 60)) false) "h1").
  - reflexivity.
  - discriminate.
  - vm_compute. reflexivity.
  - reflexivity.
  - exists true. split; [vm_compute; reflexivity|left; reflexivity].
  - reflexivity.
  - exists (mkEntry "h1" (BJson (JCompound "[1,2,3]")) (Fin 1000) (Fin 61000)).
    vm_compute. repeat split; reflexivity.
Defined.

(* ===================================================================== *)
(** ** What the response interceptor writes                              *)
(* ===================================================================== *)

(** An entry is written only for an ok response whose body could be
    copied, with the JSON value or the text as its body. *)
Lemma written_entry_body (env : Env) (this : Adapter) (response : option Response)
    (config : RequestConfig) (w : World) (e : CacheEntry) :
  In e (written (responseInterceptor env this response config w).1.1) ->
  exists r, response = Some r /\ resp_ok r = true /\ bodyUsed r = false /\
    ((isJSONResponse env config (ctype r) = true /\
      exists j, json_of r = Ok j /\ body e = BJson j) \/
     (isTextResponse env config (ctype r) = true /\
      exists s, text_of r = Ok s /\ body e = BText s)) /\
    (forall j, isJSONResponse env config (ctype r) = true -> json_of r = Ok j ->
               body e = BJson j).
Proof.
  unfold ctype. unfold_interceptor.
  cbn beta iota delta [fst snd negb app written].
  repeat (step; cbn [In]; try tauto).
  all: rewrite ?written_app; cbn [written app]; rewrite ?written_app; cbn [written app];
    rewrite ?Hwritten, ?app_nil_r; cbn [app In]; try tauto.
  all: intros Hin; apply Hset in Hin; subst e; cbn [body].
  all: destruct (Hsome _ eq_refl) as (Hbu & Hcases).
  all: eexists; split; [reflexivity|].
  all: split; [destruct (resp_ok r); [reflexivity|discriminate]|].
  all: split; [exact Hbu|].
  all: split; [exact Hcases|].
  all: intros j Hj Hok; specialize (Hjson j Hj Hbu Hok); congruence.
Qed.

(** For a content type that is neither JSON-typed nor text-typed nothing is
    written, and no exception other than those of the first lines leaves
    the interceptor. *)
Lemma responseInterceptor_skips_other_types (env : Env) (this : Adapter) (r : Response)
    (config : RequestConfig) (w : World) :
  isJSONResponse env config (ctype r) = false ->
  isTextResponse env config (ctype r) = false ->
  written (responseInterceptor env this (Some r) config w).1.1 = [] /\
  db (responseInterceptor env this (Some r) config w).1.2 = db w /\
  (ready_ok this ->
   forall err, (responseInterceptor env this (Some r) config w).2 = Throw err ->
               err = InvalidCacheConfig).
Proof.
  unfold ctype, ready_ok. intros Hj Ht.
  unfold_interceptor.
  cbn beta iota delta [fst snd negb app written].
  repeat (step; try (repeat split; intros; congruence)).
  all: try (destruct (Hskip Hj Ht) as [_ ->]); try (destruct (Hskip Hj Ht); discriminate).
  all: repeat split; intros; simplify_eq; cbn; try reflexivity; try congruence.
  all: try (eapply resolveCacheMetaConfig_error; eassumption).
  all: try (eapply isExplicitCache_error; eassumption).
Qed.

(** The response interceptor reads the body through copies only. *)
Lemma responseInterceptor_reads_copies (env : Env) (this : Adapter)
    (response : option Response) (config : RequestConfig) (w : World) :
  forallb (fun ev => negb (reads_original ev))
          (responseInterceptor env this response config w).1.1 = true.
Proof.
  unfold_interceptor.
  cbn beta iota delta [fst snd negb app written].
  repeat (step; try reflexivity).
  all: cbn [fst snd] in *.
  all: repeat (progress (rewrite ?forallb_app, ?Hclone, ?Hsetq;
                         cbn [forallb reads_original negb andb]));
       reflexivity.
Qed.

(** *** Helpers: a usable database, the gate, and the flow past the gates *)

(** With a usable database, [tx] yields the object store and leaves the
    store object with a fulfilled open promise. *)
Lemma tx_ready (env : Env) (w : World) :
  store_ready env w ->
  exists t w1, Store.tx env w = (t, w1, Ok tt) /\ db w1 = db w /\ store_open w1 /\
               no_store_access t = true /\
               dbName (store w1) = dbName (store w).
Proof.
  unfold store_ready, store_open. intros [Hs Hp]. unfold_store. rewrite Hs. simpl.
  destruct (dbPromise (store w)) as [[q o]|] eqn:Edb; simpl in *; subst; simpl.
  - do 2 eexists. split; [reflexivity|]. rewrite Edb. eauto 10.
  - rewrite Hp. simpl. do 2 eexists. split; [reflexivity|]. simpl. eauto 10.
Qed.

Lemma store_open_ready (env : Env) (w : World) :
  store_open w -> supported env = true -> store_ready env w.
Proof. intros (p & Hp & Ho) Hs. split; [exact Hs|]. rewrite Hp. exact Ho. Qed.

Lemma set_ok (env : Env) (entry : CacheEntry) (w : World) :
  store_ready env w -> request_error env OpPut = None ->
  exists t w1, Store.set env entry w = ((t ++ [EvStorePut entry])%list, w1, Ok tt) /\
               db w1 = <[hash entry := entry]> (db w) /\ store_open w1 /\
               no_store_access t = true.
Proof.
  intros Hr Hq. destruct (tx_ready env w Hr) as (t & w1 & Htx & Hdb & Hopen & Hq' & _).
  exists t, (mkWorld (store w1) (<[hash entry := entry]> (db w1)) (next_pid w1)).
  split; [|rewrite <- Hdb; auto].
  unfold Store.set. unfold bind at 1. rewrite Htx.
  unfold Store.request, bind, emit, get_world, put_world. rewrite Hq. reflexivity.
Qed.

Lemma gate_run (this : Adapter) (config : RequestConfig) (explicit : bool) (w : World) :
  (explicit = true \/
   match a_filter this with Some f => f config = true | None => True end) ->
  vetoed this explicit config w = (gate_trace this explicit, w, Ok false).
Proof.
  unfold vetoed, gate_trace, bind, emit, ret. intros Hg.
  destruct explicit; simpl; [reflexivity|].
  destruct Hg as [Hx|Hx]; [discriminate|].
  destruct (a_filter this) as [g|]; [rewrite Hx|]; reflexivity.
Qed.

(** Past the gates, the response interceptor is [store.set] of the entry
    made from the body, the fingerprint and the clock, with a failure
    logged. *)
Lemma responseInterceptor_past_gates (env : Env) (this : Adapter) (r : Response)
    (config : RequestConfig) (w : World) (cm : ExtendedCacheMeta) (h : string)
    (b : Body) (f : HTTPRequestFactory) :
  ready_ok this -> factory this = Some f ->
  resolveCacheMetaConfig (config_meta config) = Ok cm ->
  truthy (ttlSeconds cm) = true ->
  passes_gate this config ->
  resp_ok r = true ->
  (readResponseSafely env r config w).2 = Ok (Some b) ->
  body_is_null b = false ->
  getHash env (hashBody cm) = Some h ->
  (responseInterceptor env this (Some r) config w).2 = Ok tt /\
  (responseInterceptor env this (Some r) config w).1.2
    = (Store.set env
         (mkEntry h b (Fin (now env))
            (add (Fin (now env)) (mul (to_number (ttlSeconds cm)) (Fin 1000)))) w).1.2 /\
  (forall err,
     (Store.set env
        (mkEntry h b (Fin (now env))
           (add (Fin (now env)) (mul (to_number (ttlSeconds cm)) (Fin 1000)))) w).2
       = Throw err ->
     In (EvLogError "Failed to write cache entry" err)
        (responseInterceptor env this (Some r) config w).1.1).
Proof.
  unfold ready_ok, passes_gate.
  intros Hready Hf Hres Httl (explicit & Hex & Hgate) Hok Hread Hnull Hhash.
  set (entry := mkEntry h b (Fin (now env))
                  (add (Fin (now env)) (mul (to_number (ttlSeconds cm)) (Fin 1000)))).
  pose proof (gate_run this config explicit w Hgate) as Hg.
  destruct (readResponseSafely_facts env r config w) as (t & b' & Hrun & Hwr & _).
  rewrite Hrun in Hread. simpl in Hread. injection Hread as ->.
  unfold responseInterceptor. rewrite Hres, Hex.
  unfold await_opt, await, bind, lift, emit, ret. rewrite Httl.
  destruct (readyPromise this) as [[p o]|]; simpl in *; subst; simpl;
    rewrite Hg; simpl; rewrite Hok; simpl; rewrite Hrun; simpl; rewrite Hnull;
    unfold tryGetHash, bind, emit, ret; rewrite Hhash; simpl;
    unfold try_catch, log_error; rewrite Hf; fold entry;
    destruct (Store.set env entry w) as [[ts ws] [[]|err]]; simpl;
    repeat split; try discriminate;
    intros err' [= <-]; rewrite ?in_app_iff; simpl; rewrite ?in_app_iff; simpl; auto 10.
Qed.

Lemma no_store_access_written (t : list event) :
  no_store_access t = true -> written t = [].
Proof.
  unfold no_store_access. induction t as [|ev t IH]; [reflexivity|].
  destruct ev; simpl; try discriminate; exact IH.
Qed.

Lemma reads_original_none (t : list event) :
  forallb (fun ev => negb (reads_original ev)) t = true ->
  existsb reads_original t = false.
Proof.
  induction t as [|ev t IH]; [reflexivity|]. simpl.
  destruct (reads_original ev); simpl; [discriminate|exact IH].
Qed.

(** A JSON-typed body whose copy does not parse is read again, as text,
    from a second copy when the content type is text-typed as well. *)
Lemma readResponseSafely_fallback (env : Env) (r : Response) (config : RequestConfig)
    (w : World) (e : error) (s : string) :
  isJSONResponse env config (ctype r) = true -> json_of r = Throw e ->
  isTextResponse env config (ctype r) = true -> bodyUsed r = false ->
  text_of r = Ok s ->
  readResponseSafely env r config w
    = ([EvClone; EvReadJson Clone; EvClone; EvReadText Clone], w, Ok (Some (BText s))).
Proof.
  intros Hj Hjson Ht Hused Htext.
  unfold readResponseSafely, clone, read_json, read_text, original,
    try_catch, bind, lift, emit, ret, throw.
  fold (ctype r). rewrite Hj, Ht.
  repeat (progress (cbn [content identity app]; rewrite ?Hused, ?Hjson, ?Htext)).
  reflexivity.
Qed.

(** Past the gates and with a usable database, the response interceptor
    caches the entry made from the extracted body. *)
Lemma responseInterceptor_stores (env : Env) (this : Adapter) (r : Response)
    (config : RequestConfig) (w : World) (cm : ExtendedCacheMeta) (h : string) (b : Body) :
  ready_ok this -> factory this <> None ->
  resolveCacheMetaConfig (config_meta config) = Ok cm ->
  truthy (ttlSeconds cm) = true ->
  passes_gate this config ->
  resp_ok r = true ->
  (readResponseSafely env r config w).2 = Ok (Some b) ->
  body_is_null b = false ->
  getHash env (hashBody cm) = Some h ->
  store_ready env w -> request_error env OpPut = None ->
  caches (responseInterceptor env this (Some r) config w) w (stamped env cm h b).
Proof.
  unfold ready_ok, passes_gate, caches.
  intros Hready Hf Hres Httl (explicit & Hex & Hgate) Hok Hread Hnull Hhash Hst Hput.
  unfold stamped.
  set (entry := mkEntry h b (Fin (now env))
                  (add (Fin (now env)) (mul (to_number (ttlSeconds cm)) (Fin 1000)))).
  destruct (factory this) as [f|] eqn:Ef; [clear Hf|congruence].
  pose proof (gate_run this config explicit w Hgate) as Hg.
  destruct (readResponseSafely_facts env r config w) as (t & b' & Hrun & Hwr & _).
  rewrite Hrun in Hread. simpl in Hread. injection Hread as ->.
  destruct (set_ok env entry w Hst Hput) as (ts & ws & Hset & Hdb & _ & Hq).
  apply no_store_access_written in Hq.
  unfold responseInterceptor. rewrite Hres, Hex.
  unfold await_opt, await, bind, lift, emit, ret. rewrite Httl.
  destruct (readyPromise this) as [[p o]|]; simpl in *; subst; simpl;
    rewrite Hg; simpl; rewrite Hok; simpl; rewrite Hrun; simpl; rewrite Hnull;
    unfold tryGetHash, bind, emit, ret; rewrite Hhash; simpl;
    unfold try_catch, log_error; rewrite Ef; fold entry;
    rewrite Hset; simpl.
  all: split; [reflexivity|]; split; [|exact Hdb].
  all: unfold gate_trace; destruct explicit; [|destruct (a_filter this)]; simpl;
    rewrite ?written_app; simpl; rewrite ?written_app, ?Hwr, ?Hq; reflexivity.
Qed.

(** C7.  The response interceptor caches an ok response by its content
    type.  An entry it writes belongs to an ok response and holds the JSON
    value read from a copy when the content type is JSON-typed, otherwise
    the text read from a copy when it is text-typed.  For any other content
    type, a missing one included, nothing is written, the records stay as
    they are and the extraction raises no error.  Every body read is made
    on a copy: the original response is left with its body as unread as it
    was, and a consumer that runs afterwards gets from it what it would
    have got without the interceptor.  And the entry is written indeed:
    on an attached adapter whose attach-time task did not fail, with a
    usable database, a truthy TTL, a request that passes the gate, an
    available fingerprint and an ok response with an unread body, the
    interceptor ends normally having stored exactly the entry that holds
    the parsed JSON value (other than null) for a JSON-typed response, the
    text for a response that is text-typed and not JSON-typed, and the
    text again for a JSON-typed and text-typed response whose body does
    not parse as JSON. *)
Theorem responseInterceptor_caches_by_content_type (env : Env) (this : Adapter)
    (response : option Response) (config : RequestConfig) (w : World) :
  let run := responseInterceptor env this response config w in
  (forall e, In e (written run.1.1) ->
     exists r, response = Some r /\ resp_ok r = true /\
       ((isJSONResponse env config (ctype r) = true /\
         exists j, json_of r = Ok j /\ body e = BJson j) \/
        (isTextResponse env config (ctype r) = true /\
         exists s, text_of r = Ok s /\ body e = BText s)) /\
       (forall j, isJSONResponse env config (ctype r) = true -> json_of r = Ok j ->
                  body e = BJson j)) /\
  (forall r, response = Some r ->
     isJSONResponse env config (ctype r) = false ->
     isTextResponse env config (ctype r) = false ->
     written run.1.1 = [] /\ db run.1.2 = db w /\
     (ready_ok this -> forall err, run.2 = Throw err -> err = InvalidCacheConfig)) /\
  forallb (fun ev => negb (reads_original ev)) run.1.1 = true /\
  (forall r, response = Some r ->
     bodyUsed_after r run.1.1 = bodyUsed r /\
     downstream_json r run.1.1 = downstream_json r [] /\
     downstream_text r run.1.1 = downstream_text r []) /\
  (forall r cm h, response = Some r ->
     ready_ok this -> factory this <> None ->
     resolveCacheMetaConfig (config_meta config) = Ok cm ->
     truthy (ttlSeconds cm) = true ->
     passes_gate this config ->
     resp_ok r = true -> bodyUsed r = false ->
     getHash env (hashBody cm) = Some h ->
     store_ready env w -> request_error env OpPut = None ->
     (forall j, isJSONResponse env config (ctype r) = true ->
                json_of r = Ok j -> j <> JNull ->
                caches run w (stamped env cm h (BJson j))) /\
     (forall s, isJSONResponse env config (ctype r) = false ->
                isTextResponse env config (ctype r) = true ->
                text_of r = Ok s ->
                caches run w (stamped env cm h (BText s))) /\
     (forall e s, isJSONResponse env config (ctype r) = true ->
                  json_of r = Throw e ->
                  isTextResponse env config (ctype r) = true ->
                  text_of r = Ok s ->
                  caches run w (stamped env cm h (BText s)))).
Proof.
  intros run.
  assert (Hcopies : forallb (fun ev => negb (reads_original ev)) run.1.1 = true)
    by apply responseInterceptor_reads_copies.
  split; [|split; [|split; [|split]]].
  - intros e Hin.
    destruct (written_entry_body env this response config w e Hin)
      as (r & Hr & Hok & _ & Hcases & Hjson).
    exists r. auto.
  - intros r -> Hj Ht.
    exact (responseInterceptor_skips_other_types env this r config w Hj Ht).
  - exact Hcopies.
  - intros r _. unfold downstream_json, downstream_text, bodyUsed_after.
    rewrite (reads_original_none _ Hcopies). simpl. rewrite orb_false_r. auto.
  - intros r cm h -> Hready Hf Hres Httl Hgate Hok Hused Hh Hst Hput.
    destruct (readResponseSafely_facts env r config w)
      as (t & b & Hrun & _ & _ & _ & Hjson & Htext & _).
    fold (ctype r) in Hjson, Htext.
    split; [|split].
    + intros j Hj Hparse Hnn.
      apply responseInterceptor_stores; try assumption.
      * rewrite Hrun. simpl. f_equal. apply Hjson; assumption.
      * destruct j; try reflexivity. congruence.
    + intros s Hj Ht Hs.
      apply responseInterceptor_stores; try assumption.
      * rewrite Hrun. simpl. f_equal. apply Htext; assumption.
      * reflexivity.
    + intros e s Hj Hparse Ht Hs.
      apply responseInterceptor_stores; try assumption.
      * rewrite (readResponseSafely_fallback env r config w e s); auto.
      * reflexivity.
Qed.

Lemma responseInterceptor_caches_by_content_type_witness :
  (exists r, Some Examples.ok_json = Some r /\ resp_ok r = true /\
     ((isJSONResponse Examples.env_ok Examples.post_cache_60 (ctype r) = true /\
       exists j, json_of r = Ok j /\ BJson (JCompound "[1,2,3]") = BJson j) \/
      (isTextResponse Examples.env_ok Examples.post_cache_60 (ctype r) = true /\
       exists s, text_of r = Ok s /\ BJson (JCompound "[1,2,3]") = BText s)) /\
     (forall j, isJSONResponse Examples.env_ok Examples.post_cache_60 (ctype r) = true ->
                json_of r = Ok j -> BJson (JCompound "[1,2,3]") = BJson j)) /\
  caches (responseInterceptor Examples.env_ok Examples.attached_adapter
            (Some Examples.ok_json) Examples.post_cache_60 Examples.attached_world)
         Examples.attached_world
         (mkEntry "h1" (BJson (JCompound "[1,2,3]")) (Fin 1000) (Fin 61000)).
Proof.
  pose proof (responseInterceptor_caches_by_content_type Examples.env_ok
                Examples.attached_adapter (Some Examples.ok_json)
                Examples.post_cache_60 Examples.attached_world) as H.
  split.
  - apply (proj1 H (mkEntry "h1" (BJson (JCompound "[1,2,3]")) (Fin 1000) (Fin 61000))).
    vm_compute. left. reflexivity.
  - refine (proj1 (proj2 (proj2 (proj2 (proj2 H))) Examples.ok_json
                     (mkExt (PNum (Fin 60)) false) "h1" _ _ _ _ _ _ _ _ _ _ _)
                  (JCompound "[1,2,3]") _ _ _).
    + reflexivity.
    + reflexivity.
    + discriminate.
    + vm_compute. reflexivity.
    + reflexivity.
    + exists true. split; [vm_compute; reflexivity|left; reflexivity].
    + reflexivity.
    + reflexivity.
    + reflexivity.
    + split; reflexivity.
    + reflexivity.
    + vm_compute. reflexivity.
    + reflexivity.
    + discriminate.
Defined.

(* ===================================================================== *)
(** ** Opening the database                                              *)
(* ===================================================================== *)

Lemma opens_app (t1 t2 : list event) : opens (t1 ++ t2) = (opens t1 + opens t2)%nat.
Proof.
  induction t1 as [|ev t1 IH]; [reflexivity|].
  destruct ev; simpl; rewrite IH; reflexivity.
Qed.

Ltac store_cases env w op :=
  unfold_store;
  destruct (supported env); simpl; [|try reflexivity];
  [destruct (dbPromise (store w)) as [[q [[]|e0]]|] eqn:Edb; simpl; rewrite ?Edb;
   try reflexivity;
   try (destruct (open_outcome env) as [[]|e0]; simpl; rewrite ?Edb; try reflexivity);
   destruct (request_error env op); simpl; rewrite ?Edb; try reflexivity].

(** A call opens the database exactly when it turns a store object
    without an open promise into one with it. *)
Lemma run_call_opened (c : Env * StoreCall) (w : World) :
  (opens (run_call c w).1 + opened w)%nat = opened (run_call c w).2.
Proof.
  destruct c as [env [h|e|h| |[n|]]]; unfold run_call, opened.
  - store_cases env w OpGet.
  - store_cases env w OpPut.
  - store_cases env w OpDelete.
  - store_cases env w OpClear.
  - store_cases env w OpSweep.
  - store_cases env w OpSweep.
Qed.

Lemma run_calls_opened (cs : list (Env * StoreCall)) (w : World) :
  (opens (run_calls cs w).1 + opened w)%nat = opened (run_calls cs w).2.
Proof.
  revert w. induction cs as [|c cs IH]; intros w; [reflexivity|].
  simpl. pose proof (run_call_opened c w) as Hc.
  destruct (run_call c w) as [t1 w1]. specialize (IH w1).
  destruct (run_calls cs w1) as [t2 w2]. simpl in *.
  rewrite opens_app. lia.
Qed.

Lemma first_call_opens (env : Env) (call : StoreCall) (w : World) :
  dbPromise (store w) = None -> supported env = true ->
  exists rest,
    (run_call (env, call) w).1
      = EvIDBOpen (dbName (store w)) :: EvAwait (next_pid w) :: rest /\
    dbPromise (store (run_call (env, call) w).2)
      = Some (mkPromise (next_pid w) (open_outcome env)).
Proof.
  intros Hn Hs. destruct call as [h|e|h| |[n|]]; unfold run_call; unfold_store;
    rewrite Hs, Hn; simpl.
  all: destruct (open_outcome env) as [[]|e0]; simpl; eauto.
  all: match goal with |- context [request_error ?en ?op] =>
         destruct (request_error en op); simpl; eauto end.
Qed.

Lemma later_call_awaits (env : Env) (call : StoreCall) (w : World) (p : Promise unit) :
  dbPromise (store w) = Some p ->
  opens (run_call (env, call) w).1 = 0%nat /\
  dbPromise (store (run_call (env, call) w).2) = Some p /\
  (supported env = true ->
   exists rest, (run_call (env, call) w).1 = EvAwait (pid p) :: rest).
Proof.
  intros Hp. destruct call as [h|e|h| |[n|]]; unfold run_call; unfold_store;
    rewrite Hp; simpl.
  all: destruct (supported env); simpl; [|repeat split; try assumption; discriminate].
  all: destruct p as [q [[]|e0]]; simpl; [|repeat split; eauto].
  all: try match goal with |- context [request_error ?en ?op] =>
         destruct (request_error en op) end; simpl; repeat split; eauto.
Qed.

(** Two calls of [open()] in a row, the second made before anything was
    awaited, return the same promise, and the second opens nothing. *)
Lemma open_twice_same_promise (env1 env2 : Env) (w w1 w2 : World)
    (t1 t2 : list event) (p1 p2 : Promise unit) :
  Store.open env1 w = (t1, w1, Ok p1) ->
  Store.open env2 w1 = (t2, w2, Ok p2) ->
  p2 = p1 /\ t2 = [] /\ w2 = w1.
Proof.
  unfold_store.
  destruct (supported env1); simpl; [|discriminate].
  destruct (dbPromise (store w)) as [p|] eqn:Ew; simpl.
  - intros [= <- <- <-]. destruct (supported env2); simpl; [|discriminate].
    rewrite Ew. simpl. intros [= <- <- <-]. auto.
  - intros [= <- <- <-]. destruct (supported env2); simpl; [|discriminate].
    intros [= <- <- <-]. auto.
Qed.

(** C9.  The database is opened lazily and at most once: a store object
    is constructed without an open promise; over any sequence of calls of
    its methods [indexedDB.open] is called at most once; where IndexedDB
    is present the first call starts the open and keeps its promise before
    awaiting it; and every later call, made before or after that promise
    settles, awaits the very same promise and starts no second open. *)
Theorem open_is_single_flight :
  (forall options this s, constructor options = Ok (this, s) -> dbPromise s = None) /\
  (forall cs w, (opens (run_calls cs w).1 <= 1)%nat) /\
  (forall env1 env2 w w1 w2 t1 t2 p1 p2,
     Store.open env1 w = (t1, w1, Ok p1) ->
     Store.open env2 w1 = (t2, w2, Ok p2) ->
     p2 = p1 /\ t2 = [] /\ w2 = w1) /\
  (forall env call w,
     dbPromise (store w) = None -> supported env = true ->
     exists rest,
       (run_call (env, call) w).1
         = EvIDBOpen (dbName (store w)) :: EvAwait (next_pid w) :: rest /\
       dbPromise (store (run_call (env, call) w).2)
         = Some (mkPromise (next_pid w) (open_outcome env))) /\
  (forall env call w p,
     dbPromise (store w) = Some p ->
     opens (run_call (env, call) w).1 = 0%nat /\
     dbPromise (store (run_call (env, call) w).2) = Some p /\
     (supported env = true ->
      exists rest, (run_call (env, call) w).1 = EvAwait (pid p) :: rest)).
Proof.
  split; [|split; [|split; [|split]]].
  - intros options this s. unfold constructor.
    destruct (cacheName _) as [name|]; [|discriminate].
    destruct (String.eqb name ""); [discriminate|].
    intros [= <- <-]. reflexivity.
  - intros cs w. pose proof (run_calls_opened cs w) as H.
    assert (opened (run_calls cs w).2 <= 1)%nat
      by (unfold opened; destruct (dbPromise _); lia).
    lia.
  - exact open_twice_same_promise.
  - exact first_call_opens.
  - exact later_call_awaits.
Qed.

Lemma open_is_single_flight_witness :
  exists rest,
    (run_call (Examples.env_ok, CallGet "h1") (Examples.fresh_world "c")).1
      = EvIDBOpen "c" :: EvAwait 0 :: rest /\
    dbPromise (store (run_call (Examples.env_ok, CallGet "h1")
                               (Examples.fresh_world "c")).2)
      = Some (mkPromise 0 (Ok tt)).
Proof.
  apply (proj1 (proj2 (proj2 (proj2 open_is_single_flight)))
           Examples.env_ok (CallGet "h1") (Examples.fresh_world "c")).
  - reflexivity.
  - reflexivity.
Defined.

(* ===================================================================== *)
(** ** The store: what its methods do to the records                     *)
(* ===================================================================== *)

Lemma bind_assoc {A B C : Type} (m : M A) (f : A -> M B) (g : B -> M C) (w : World) :
  bind (bind m f) g w = bind m (fun x => bind (f x) g) w.
Proof.
  unfold bind. destruct (m w) as [[t1 w1] [a|e]]; [|reflexivity].
  destruct (f a w1) as [[t2 w2] [b|e]]; [|reflexivity].
  destruct (g b w2) as [[t3 w3] r]. rewrite app_assoc. reflexivity.
Qed.

Lemma get_ok (env : Env) (h : string) (w : World) :
  store_ready env w -> request_error env OpGet = None ->
  exists t w1, Store.get env h w = ((t ++ [EvStoreGet h])%list, w1, Ok (db w !! h)) /\
               db w1 = db w /\ store_open w1 /\ no_store_access t = true.
Proof.
  intros Hr Hq. destruct (tx_ready env w Hr) as (t & w1 & Htx & Hdb & Hopen & Hq' & _).
  exists t, w1. split; [|auto].
  unfold Store.get. unfold bind at 1. rewrite Htx.
  unfold Store.request, bind, emit, get_world, ret. rewrite Hq. simpl. rewrite Hdb. reflexivity.
Qed.

Lemma delete_ok (env : Env) (h : string) (w : World) :
  store_ready env w -> request_error env OpDelete = None ->
  exists t w1, Store.delete env h w = ((t ++ [EvStoreDelete h])%list, w1, Ok tt) /\
               db w1 = base.delete h (db w) /\ store_open w1 /\ no_store_access t = true.
Proof.
  intros Hr Hq. destruct (tx_ready env w Hr) as (t & w1 & Htx & Hdb & Hopen & Hq' & _).
  exists t, (mkWorld (store w1) (base.delete h (db w1)) (next_pid w1)).
  split; [|rewrite <- Hdb; auto].
  unfold Store.delete. unfold bind at 1. rewrite Htx.
  unfold Store.request, bind, emit, get_world, put_world. rewrite Hq. reflexivity.
Qed.

Lemma clear_ok (env : Env) (w : World) :
  store_ready env w -> request_error env OpClear = None ->
  exists t w1, Store.clear env w = ((t ++ [EvStoreClear])%list, w1, Ok tt) /\
               db w1 = ∅ /\ store_open w1 /\ no_store_access t = true.
Proof.
  intros Hr Hq. destruct (tx_ready env w Hr) as (t & w1 & Htx & Hdb & Hopen & Hq' & _).
  exists t, (mkWorld (store w1) ∅ (next_pid w1)).
  split; [|auto].
  unfold Store.clear. unfold bind at 1. rewrite Htx.
  unfold Store.request, bind, emit, get_world, put_world. rewrite Hq. reflexivity.
Qed.

Lemma cleanupExpired_ok (env : Env) (n : Z) (w : World) :
  store_ready env w -> request_error env OpSweep = None ->
  exists t w1, Store.cleanupExpired env (Fin n) w
                 = ((t ++ [EvStoreSweep (Fin n)])%list, w1, Ok tt) /\
               db w1 = filter (fun kv => negb (le (expiresAt kv.2) (Fin n)) = true) (db w) /\
               store_open w1 /\ no_store_access t = true.
Proof.
  intros Hr Hq. destruct (tx_ready env w Hr) as (t & w1 & Htx & Hdb & Hopen & Hq' & _).
  exists t, (mkWorld (store w1)
               (filter (fun kv => negb (le (expiresAt kv.2) (Fin n)) = true) (db w1))
               (next_pid w1)).
  split; [|rewrite <- Hdb; auto].
  unfold Store.cleanupExpired.
  rewrite <- (bind_assoc (Store.open env) (fun p => await p)).
  change (bind (Store.open env) (fun p => await p)) with (Store.tx env).
  unfold bind at 1. rewrite Htx.
  unfold Store.request, bind, emit, get_world, put_world. rewrite Hq. reflexivity.
Qed.

(** A bound that is not a number makes [cleanupExpired] fail once the
    database is open, before any request reaches the object store. *)
Lemma cleanupExpired_NaN (env : Env) (w : World) :
  store_ready env w ->
  exists t w1, Store.cleanupExpired env NaN w = (t, w1, Throw DataError) /\
               db w1 = db w /\ store_open w1 /\ no_store_access t = true.
Proof.
  intros Hr. destruct (tx_ready env w Hr) as (t & w1 & Htx & Hdb & Hopen & Hq' & _).
  exists t, w1. split; [|auto].
  unfold Store.cleanupExpired.
  rewrite <- (bind_assoc (Store.open env) (fun p => await p)).
  change (bind (Store.open env) (fun p => await p)) with (Store.tx env).
  unfold bind at 1. rewrite Htx. unfold throw. rewrite app_nil_r. reflexivity.
Qed.

Lemma filter_fresh_lookup (nowMs : num) (m : gmap string CacheEntry) (h : string) :
  filter (fun kv => negb (le (expiresAt kv.2) nowMs) = true) m !! h
  = match m !! h with
    | Some e => if le (expiresAt e) nowMs then None else Some e
    | None => None
    end.
Proof.
  rewrite map_lookup_filter. destruct (m !! h) as [e|]; simpl; [|reflexivity].
  destruct (le (expiresAt e) nowMs); simpl; reflexivity.
Qed.

(** A call that throws leaves the records as they were. *)
Lemma failed_call_keeps_records (c : Env * StoreCall) (w : World) (e : error) :
  call_error c w = Some e -> db (run_call c w).2 = db w.
Proof.
  destruct c as [env [h|x|h| |[n|]]]; unfold call_error, run_call.
  - store_cases env w OpGet.
  - store_cases env w OpPut; discriminate.
  - store_cases env w OpDelete; discriminate.
  - store_cases env w OpClear; discriminate.
  - store_cases env w OpSweep; discriminate.
  - store_cases env w OpSweep; discriminate.
Qed.

Ltac store_split env w op :=
  unfold_store;
  destruct (supported env); simpl;
  [destruct (dbPromise (store w)) as [[q [[]|e0]]|]; simpl;
   [destruct (request_error env op)
   |
   |destruct (open_outcome env) as [[]|e0]; simpl; [destruct (request_error env op)|]]
  |]; simpl.

Lemma Store_clear_records (env : Env) (w : World) :
  ((Store.clear env w).2 = Ok tt -> db (Store.clear env w).1.2 = ∅) /\
  (forall e, (Store.clear env w).2 = Throw e -> db (Store.clear env w).1.2 = db w).
Proof.
  split.
  - store_split env w OpClear; try discriminate; auto.
  - intros e He. apply (failed_call_keeps_records (env, CallClear) w e).
    unfold call_error. rewrite He. reflexivity.
Qed.

(** X1.  With a usable database, [set(entry)] followed by [get] of the
    entry's hash returns that very entry, and [get] of any other hash
    returns what was stored before: an upsert keyed by [hash]. *)
Theorem store_set_then_get (env1 env2 : Env) (entry : CacheEntry) (w : World) :
  store_ready env1 w -> request_error env1 OpPut = None ->
  supported env2 = true -> request_error env2 OpGet = None ->
  (Store.set env1 entry w).2 = Ok tt /\
  (Store.get env2 (hash entry) (Store.set env1 entry w).1.2).2 = Ok (Some entry) /\
  (forall h, h <> hash entry ->
     (Store.get env2 h (Store.set env1 entry w).1.2).2 = Ok (db w !! h)).
Proof.
  intros Hr Hput Hs2 Hget.
  destruct (set_ok env1 entry w Hr Hput) as (t & w1 & -> & Hdb & Hopen & _). simpl.
  split; [reflexivity|].
  assert (Hr2 : store_ready env2 w1) by (apply store_open_ready; assumption).
  split.
  - destruct (get_ok env2 (hash entry) w1 Hr2 Hget) as (t' & w2 & -> & _). simpl.
    rewrite Hdb, lookup_insert_eq. reflexivity.
  - intros h Hne. destruct (get_ok env2 h w1 Hr2 Hget) as (t' & w2 & -> & _). simpl.
    rewrite Hdb, lookup_insert_ne by congruence. reflexivity.
Qed.

Lemma store_set_then_get_witness :
  (Store.get Examples.env_ok "h1"
     (Store.set Examples.env_ok Cases.entry_h1 (Examples.fresh_world "c")).1.2).2
    = Ok (Some Cases.entry_h1).
Proof.
  apply (store_set_then_get Examples.env_ok Examples.env_ok Cases.entry_h1
           (Examples.fresh_world "c")).
  - split; reflexivity.
  - reflexivity.
  - reflexivity.
  - reflexivity.
Defined.

(** X2.  With a usable database, [delete(hash)] followed by [get] of that
    hash returns null, whether or not the hash was stored, and every other
    hash is untouched. *)
Theorem store_delete_then_get (env1 env2 : Env) (h : string) (w : World) :
  store_ready env1 w -> request_error env1 OpDelete = None ->
  supported env2 = true -> request_error env2 OpGet = None ->
  (Store.delete env1 h w).2 = Ok tt /\
  (Store.get env2 h (Store.delete env1 h w).1.2).2 = Ok None /\
  (forall h', h' <> h ->
     (Store.get env2 h' (Store.delete env1 h w).1.2).2 = Ok (db w !! h')).
Proof.
  intros Hr Hdel Hs2 Hget.
  destruct (delete_ok env1 h w Hr Hdel) as (t & w1 & -> & Hdb & Hopen & _). simpl.
  split; [reflexivity|].
  assert (Hr2 : store_ready env2 w1) by (apply store_open_ready; assumption).
  split.
  - destruct (get_ok env2 h w1 Hr2 Hget) as (t' & w2 & -> & _). simpl.
    rewrite Hdb, lookup_delete_eq. reflexivity.
  - intros h' Hne. destruct (get_ok env2 h' w1 Hr2 Hget) as (t' & w2 & -> & _). simpl.
    rewrite Hdb, lookup_delete_ne by congruence. reflexivity.
Qed.

Lemma store_delete_then_get_witness :
  (Store.get Examples.env_ok "h1"
     (Store.delete Examples.env_ok "h1" Examples.stocked_world).1.2).2 = Ok None.
Proof.
  apply (store_delete_then_get Examples.env_ok Examples.env_ok "h1" Examples.stocked_world).
  - split; reflexivity.
  - reflexivity.
  - reflexivity.
  - reflexivity.
Defined.

(** X3.  With a usable database, after [clear()] every [get] returns
    null. *)
Theorem store_clear_then_get (env1 env2 : Env) (h : string) (w : World) :
  store_ready env1 w -> request_error env1 OpClear = None ->
  supported env2 = true -> request_error env2 OpGet = None ->
  (Store.clear env1 w).2 = Ok tt /\
  (Store.get env2 h (Store.clear env1 w).1.2).2 = Ok None.
Proof.
  intros Hr Hc Hs2 Hget.
  destruct (clear_ok env1 w Hr Hc) as (t & w1 & -> & Hdb & Hopen & _). simpl.
  split; [reflexivity|].
  assert (Hr2 : store_ready env2 w1) by (apply store_open_ready; assumption).
  destruct (get_ok env2 h w1 Hr2 Hget) as (t' & w2 & -> & _). simpl.
  rewrite Hdb, lookup_empty. reflexivity.
Qed.

Lemma store_clear_then_get_witness :
  (Store.get Examples.env_ok "h1"
     (Store.clear Examples.env_ok Examples.stocked_world).1.2).2 = Ok None.
Proof.
  apply (store_clear_then_get Examples.env_ok Examples.env_ok "h1" Examples.stocked_world).
  - split; reflexivity.
  - reflexivity.
  - reflexivity.
  - reflexivity.
Defined.

(** X4.  With a usable database, after [cleanupExpired(now)] for a bound
    [now] that is a number other than NaN, a [get] returns null for every
    entry whose [expiresAt] is at most [now], the bound included, and the
    stored entry for every other one; an entry whose [expiresAt] is NaN is
    never swept.  For the bound NaN the call is rejected with a
    [DataError] before any request reaches the object store, and every
    record stays. *)
Theorem store_cleanupExpired_then_get (env1 env2 : Env) (n : Z) (h : string)
    (w : World) :
  store_ready env1 w -> request_error env1 OpSweep = None ->
  supported env2 = true -> request_error env2 OpGet = None ->
  (Store.cleanupExpired env1 (Fin n) w).2 = Ok tt /\
  (Store.get env2 h (Store.cleanupExpired env1 (Fin n) w).1.2).2
    = Ok (match db w !! h with
          | Some e => if le (expiresAt e) (Fin n) then None else Some e
          | None => None
          end) /\
  (forall e, db w !! h = Some e -> expiresAt e = NaN ->
     (Store.get env2 h (Store.cleanupExpired env1 (Fin n) w).1.2).2 = Ok (Some e)) /\
  (Store.cleanupExpired env1 NaN w).2 = Throw DataError /\
  no_store_access (Store.cleanupExpired env1 NaN w).1.1 = true /\
  (Store.get env2 h (Store.cleanupExpired env1 NaN w).1.2).2 = Ok (db w !! h).
Proof.
  intros Hr Hc Hs2 Hget.
  destruct (cleanupExpired_NaN env1 w Hr) as (tn & wn & -> & Hdbn & Hopenn & Hqn).
  destruct (cleanupExpired_ok env1 n w Hr Hc) as (t & w1 & -> & Hdb & Hopen & _). simpl.
  split; [reflexivity|].
  assert (Hr2 : store_ready env2 w1) by (apply store_open_ready; assumption).
  assert (Hrn : store_ready env2 wn) by (apply store_open_ready; assumption).
  destruct (get_ok env2 h w1 Hr2 Hget) as (t' & w2 & -> & _).
  destruct (get_ok env2 h wn Hrn Hget) as (t'' & w3 & -> & _). simpl.
  rewrite Hdb, Hdbn, filter_fresh_lookup. split; [reflexivity|].
  split; [intros e -> ->; reflexivity|]. auto.
Qed.

Lemma store_cleanupExpired_then_get_witness :
  (Store.get Examples.env_ok "h1"
     (Store.cleanupExpired Examples.env_ok (Fin 61000) Examples.stocked_world).1.2).2
    = Ok None /\
  (Store.cleanupExpired Examples.env_ok NaN Examples.stocked_world).2 = Throw DataError.
Proof.
  refine ((fun H => conj (proj1 (proj2 H)) (proj1 (proj2 (proj2 (proj2 H)))))
            (store_cleanupExpired_then_get Examples.env_ok Examples.env_ok 61000 "h1"
               Examples.stocked_world _ _ _ _)).
  - split; reflexivity.
  - reflexivity.
  - reflexivity.
  - reflexivity.
Defined.

(** X5.  A call of a store method that throws leaves the records exactly
    as they were, and [get] never changes them, whether it succeeds or
    not. *)
Theorem store_failure_keeps_records (c : Env * StoreCall) (w : World) :
  (forall e, call_error c w = Some e -> db (run_call c w).2 = db w) /\
  (forall env h, db (Store.get env h w).1.2 = db w).
Proof.
  split.
  - intros e. apply failed_call_keeps_records.
  - intros env h. apply Store_get_facts.
Qed.

Lemma store_failure_keeps_records_witness :
  db (run_call (Cases.env_put_fails, CallSet Cases.entry_h1) (Examples.fresh_world "c")).2
    = db (Examples.fresh_world "c").
Proof.
  apply (proj1 (store_failure_keeps_records (Cases.env_put_fails, CallSet Cases.entry_h1)
                  (Examples.fresh_world "c")) (StorageIO "put")).
  reflexivity.
Defined.

(** X6.  Where IndexedDB is missing, every store method throws
    'IndexedDB not available' at once: it opens nothing, awaits nothing
    and leaves the store object and the records untouched. *)
Theorem store_without_indexedDB (env : Env) (call : StoreCall) (w : World) :
  supported env = false ->
  run_call (env, call) w = ([], w) /\ call_error (env, call) w = Some StorageUnavailable.
Proof.
  intros Hs. destruct call as [h|x|h| |n]; unfold call_error, run_call; unfold_store;
    rewrite Hs; simpl; auto.
Qed.

Lemma store_without_indexedDB_witness :
  run_call (Examples.env_no_idb, CallGet "h1") Examples.stocked_world
    = ([], Examples.stocked_world) /\
  call_error (Examples.env_no_idb, CallGet "h1") Examples.stocked_world
    = Some StorageUnavailable.
Proof.
  apply (store_without_indexedDB Examples.env_no_idb (CallGet "h1") Examples.stocked_world).
  reflexivity.
Defined.

(** X7.  A failed open is never retried: when the first call's open is
    rejected, the call throws that error and the store object keeps the
    rejected promise, so that every later call, in whatever environment
    that has IndexedDB, only awaits that promise and throws the same error
    without calling [indexedDB.open] again. *)
Theorem failed_open_is_not_retried (env env' : Env) (call call' : StoreCall)
    (w : World) (e : error) :
  dbPromise (store w) = None -> supported env = true -> open_outcome env = Throw e ->
  call_error (env, call) w = Some e /\
  db (run_call (env, call) w).2 = db w /\
  (supported env' = true ->
   call_error (env', call') (run_call (env, call) w).2 = Some e /\
   (run_call (env', call') (run_call (env, call) w).2).1 = [EvAwait (next_pid w)] /\
   (run_call (env', call') (run_call (env, call) w).2).2 = (run_call (env, call) w).2).
Proof.
  intros Hn Hs Ho.
  assert (Hfirst : run_call (env, call) w
                   = ([EvIDBOpen (dbName (store w)); EvAwait (next_pid w)],
                      mkWorld (mkStore (dbName (store w)) (storeName (store w))
                                       (Some (mkPromise (next_pid w) (Throw e))))
                              (db w) (S (next_pid w))) /\
                   call_error (env, call) w = Some e).
  { destruct call as [h|x|h| |n]; unfold call_error, run_call; unfold_store;
      rewrite Hs, Hn; simpl; rewrite Ho; simpl; auto. }
  destruct Hfirst as [-> ->]. simpl.
  split; [reflexivity|]. split; [reflexivity|]. intros Hs'.
  destruct call' as [h|x|h| |n]; unfold call_error, run_call; unfold_store;
    rewrite Hs'; simpl; auto.
Qed.

Lemma failed_open_is_not_retried_witness :
  call_error (Examples.env_ok, CallGet "h1")
             (run_call (Cases.env_open_blocked, CallClear) (Examples.fresh_world "c")).2
    = Some (StorageIO "IndexedDB open blocked").
Proof.
  apply (failed_open_is_not_retried Cases.env_open_blocked Examples.env_ok CallClear
           (CallGet "h1") (Examples.fresh_world "c") (StorageIO "IndexedDB open blocked")).
  - reflexivity.
  - reflexivity.
  - reflexivity.
  - reflexivity.
Defined.

(* ===================================================================== *)
(** ** The interceptors: when they pass a request through                *)
(* ===================================================================== *)

(** X8.  When the resolved TTL is falsy (no [cache] setting, 0, NaN), both
    interceptors return at once: apart from the await of the attach-time
    promise they call nothing, neither the filter nor [finaliseURL] nor
    [getHash] nor the store, and this holds for explicit requests too. *)
Theorem falsy_ttl_passes_through (env : Env) (this : Adapter) (response : option Response)
    (config : RequestConfig) (w : World) (cm : ExtendedCacheMeta) :
  ready_ok this ->
  resolveCacheMetaConfig (config_meta config) = Ok cm ->
  truthy (ttlSeconds cm) = false ->
  requestInterceptor env this config w = (ready_trace this, w, Ok None) /\
  responseInterceptor env this response config w = (ready_trace this, w, Ok tt).
Proof.
  unfold ready_ok, ready_trace. intros Hr Hres Ht.
  unfold_interceptor. rewrite Hres, Ht.
  destruct (readyPromise this) as [[p o]|]; simpl in *; subst; split; reflexivity.
Qed.

Lemma falsy_ttl_passes_through_witness :
  requestInterceptor Examples.env_ok Examples.attached_adapter
                     Examples.post_endpoint_cache_0 Examples.stocked_world
    = ([EvAwait 0], Examples.stocked_world, Ok None) /\
  responseInterceptor Examples.env_ok Examples.attached_adapter (Some Examples.ok_json)
                      Examples.post_endpoint_cache_0 Examples.stocked_world
    = ([EvAwait 0], Examples.stocked_world, Ok tt).
Proof.
  apply (falsy_ttl_passes_through Examples.env_ok Examples.attached_adapter
           (Some Examples.ok_json) Examples.post_endpoint_cache_0 Examples.stocked_world
           (mkExt (PNum (Fin 0)) false)).
  - reflexivity.
  - vm_compute. reflexivity.
  - reflexivity.
Defined.

(** X9.  When the request is not explicit and the configured filter
    rejects it, both interceptors return right after calling the filter
    once: no hash is computed, the response body is not read and the store
    is not touched. *)
Theorem filter_veto_passes_through (env : Env) (this : Adapter) (response : option Response)
    (config : RequestConfig) (w : World) (cm : ExtendedCacheMeta)
    (f : RequestConfig -> bool) :
  ready_ok this ->
  resolveCacheMetaConfig (config_meta config) = Ok cm ->
  truthy (ttlSeconds cm) = true ->
  isExplicitCache config = Ok false ->
  a_filter this = Some f -> f config = false ->
  requestInterceptor env this config w = ((ready_trace this ++ [EvFilter])%list, w, Ok None) /\
  responseInterceptor env this response config w
    = ((ready_trace this ++ [EvFilter])%list, w, Ok tt).
Proof.
  unfold ready_ok, ready_trace. intros Hr Hres Ht Hex Hf Hfc.
  unfold_interceptor. rewrite Hres, Ht, Hex, Hf, Hfc.
  destruct (readyPromise this) as [[p o]|]; simpl in *; subst; split; reflexivity.
Qed.

Lemma filter_veto_passes_through_witness :
  requestInterceptor Examples.env_ok Cases.filtering_adapter Cases.post_api_default
                     Examples.stocked_world
    = ([EvFilter], Examples.stocked_world, Ok None) /\
  responseInterceptor Examples.env_ok Cases.filtering_adapter (Some Examples.ok_json)
                      Cases.post_api_default Examples.stocked_world
    = ([EvFilter], Examples.stocked_world, Ok tt).
Proof.
  apply (filter_veto_passes_through Examples.env_ok Cases.filtering_adapter
           (Some Examples.ok_json) Cases.post_api_default Examples.stocked_world
           (mkExt (PNum (Fin 60)) false) Examples.only_get).
  - reflexivity.
  - vm_compute. reflexivity.
  - reflexivity.
  - vm_compute. reflexivity.
  - reflexivity.
  - reflexivity.
Defined.

(** X10.  When [getHash] throws, a request that passed the gate is let
    through silently: the request interceptor finalises the URL, asks for
    the hash and returns nothing; the response interceptor completes too;
    neither touches the store nor logs anything. *)
Theorem missing_fingerprint_passes_through (env : Env) (this : Adapter)
    (response : option Response) (config : RequestConfig) (w : World)
    (cm : ExtendedCacheMeta) (explicit : bool) :
  ready_ok this ->
  resolveCacheMetaConfig (config_meta config) = Ok cm ->
  truthy (ttlSeconds cm) = true ->
  isExplicitCache config = Ok explicit ->
  (explicit = true \/
   match a_filter this with Some f => f config = true | None => True end) ->
  getHash env (hashBody cm) = None ->
  requestInterceptor env this config w
    = ((ready_trace this ++ gate_trace this explicit
        ++ [EvFinaliseURL; EvGetHash (hashBody cm)])%list, w, Ok None) /\
  (responseInterceptor env this response config w).2 = Ok tt /\
  (responseInterceptor env this response config w).1.2 = w /\
  no_store_access (responseInterceptor env this response config w).1.1 = true.
Proof.
  unfold ready_ok, ready_trace. intros Hr Hres Ht Hex Hg Hh.
  pose proof (gate_run this config explicit w Hg) as Hgate.
  assert (Hgq : no_store_access (gate_trace this explicit) = true)
    by (unfold gate_trace; destruct explicit, (a_filter this); reflexivity).
  split; [|cut ((responseInterceptor env this response config w).1.2 = w /\
                (responseInterceptor env this response config w).2 = Ok tt /\
                no_store_access (responseInterceptor env this response config w).1.1 = true);
           [tauto|]].
  - unfold requestInterceptor. rewrite Hres, Hex.
    unfold await_opt, await, bind, lift, emit, ret. rewrite Ht.
    destruct (readyPromise this) as [[p o]|]; simpl in *; subst; simpl;
      rewrite Hgate; unfold tryGetHash, bind, emit, ret; rewrite Hh; simpl;
      rewrite ?app_nil_r; reflexivity.
  - unfold responseInterceptor. rewrite Hres, Hex.
    unfold await_opt, await, bind, lift, emit, ret. rewrite Ht.
    destruct (readyPromise this) as [[p o]|]; simpl in *; subst; simpl;
      rewrite Hgate; simpl;
      (destruct response as [r|]; [destruct (resp_ok r)|]; simpl;
       unfold no_store_access in *; rewrite ?forallb_app, ?app_nil_r, ?Hgq; auto);
      (destruct (readResponseSafely_facts env r config w)
         as (t & b & -> & _ & Hq & _); simpl;
       unfold tryGetHash, bind, emit, ret; rewrite Hh;
       destruct b as [b|]; [destruct (body_is_null b)|]; simpl;
       unfold no_store_access in *; rewrite ?forallb_app, ?app_nil_r, ?Hgq, ?Hq; simpl;
       rewrite ?forallb_app, ?Hq; auto).
Qed.

Lemma missing_fingerprint_passes_through_witness :
  requestInterceptor Cases.env_no_hash Examples.attached_adapter Examples.post_cache_60
                     Examples.stocked_world
    = ([EvAwait 0; EvFinaliseURL; EvGetHash false], Examples.stocked_world, Ok None).
Proof.
  apply (missing_fingerprint_passes_through Cases.env_no_hash Examples.attached_adapter
           (Some Examples.ok_json) Examples.post_cache_60 Examples.stocked_world
           (mkExt (PNum (Fin 60)) false) true).
  - reflexivity.
  - vm_compute. reflexivity.
  - reflexivity.
  - vm_compute. reflexivity.
  - left. reflexivity.
  - reflexivity.
Defined.

(* ===================================================================== *)
(** ** The interceptors: from a written response to a served one         *)
(* ===================================================================== *)

Lemma hit_source (env : Env) (this : Adapter) (config : RequestConfig)
    (w : World) (b : Body) :
  (requestInterceptor env this config w).2 = Ok (Some b) ->
  exists cm h e,
    resolveCacheMetaConfig (config_meta config) = Ok cm /\
    truthy (ttlSeconds cm) = true /\
    getHash env (hashBody cm) = Some h /\
    db w !! h = Some e /\ body e = b /\
    gt (expiresAt e) (Fin (now env)) = true.
Proof.
  unfold_interceptor.
  cbn beta iota delta [fst snd negb app written].
  repeat (step; try discriminate).
  all: cbn [fst snd] in *.
  all: intros [= <-]; destruct Hget as (_ & _ & Hl); specialize (Hl _ eq_refl).
  all: match goal with H : negb (truthy _) = false |- _ => apply negb_false_iff in H end.
  all: do 3 eexists; repeat split; eauto.
Qed.

(** X11.  Whatever body the request interceptor returns is the body of an
    entry that is stored under the request's own fingerprint and whose
    [expiresAt] is greater than the clock reading; the request had a truthy
    TTL.  The interceptor never makes a body up and never serves an expired
    or foreign entry. *)
Theorem hit_comes_from_the_store (env : Env) (this : Adapter) (config : RequestConfig)
    (w : World) (b : Body) :
  (requestInterceptor env this config w).2 = Ok (Some b) ->
  exists cm h e,
    resolveCacheMetaConfig (config_meta config) = Ok cm /\
    truthy (ttlSeconds cm) = true /\
    getHash env (hashBody cm) = Some h /\
    db w !! h = Some e /\ body e = b /\
    gt (expiresAt e) (Fin (now env)) = true.
Proof.
  unfold_interceptor.
  cbn beta iota delta [fst snd negb app written].
  repeat (step; try discriminate).
  all: cbn [fst snd] in *.
  all: intros [= <-]; destruct Hget as (_ & _ & Hl); specialize (Hl _ eq_refl).
  all: match goal with H : negb (truthy _) = false |- _ => apply negb_false_iff in H end.
  all: do 3 eexists; repeat split; eauto.
Qed.

Lemma hit_comes_from_the_store_witness :
  exists cm h e,
    resolveCacheMetaConfig (config_meta Examples.post_cache_60) = Ok cm /\
    truthy (ttlSeconds cm) = true /\
    getHash Examples.env_ok (hashBody cm) = Some h /\
    db Examples.stocked_world !! h = Some e /\
    body e = BJson (JCompound "[1,2,3]") /\
    gt (expiresAt e) (Fin (now Examples.env_ok)) = true.
Proof.
  apply (hit_comes_from_the_store Examples.env_ok Examples.attached_adapter
           Examples.post_cache_60 Examples.stocked_world).
  vm_compute. reflexivity.
Defined.

(** X12.  The round trip of a cached response, for a TTL that is a whole
    number of seconds and clock readings such that [now], [ttl * 1000] and
    [now + ttl * 1000] are integers that a double holds exactly (so that
    the sum the code computes is that integer).  On an attached adapter
    with a usable database, the response interceptor stores the extracted
    body under the request's fingerprint with
    [expiresAt = now + ttl * 1000]; the request interceptor of a later
    request with the same fingerprint returns that body as long as its
    clock reads less than that bound, and nothing from then on (so an entry
    written with a negative TTL is served at no later clock reading). *)
Theorem cached_response_is_served (env env2 : Env) (this : Adapter) (r : Response)
    (config : RequestConfig) (w : World) (ttl : Z) (hb : bool) (h : string) (b : Body) :
  ready_ok this -> factory this <> None ->
  resolveCacheMetaConfig (config_meta config) = Ok (mkExt (PNum (Fin ttl)) hb) ->
  ttl <> 0 ->
  safe_integer (now env) -> safe_integer (ttl * 1000) ->
  safe_integer (now env + ttl * 1000) -> safe_integer (now env2) ->
  passes_gate this config ->
  resp_ok r = true ->
  (readResponseSafely env r config w).2 = Ok (Some b) ->
  body_is_null b = false ->
  getHash env hb = Some h -> getHash env2 hb = Some h ->
  store_ready env w -> request_error env OpPut = None ->
  supported env2 = true -> request_error env2 OpGet = None ->
  db (responseInterceptor env this (Some r) config w).1.2 !! h
    = Some (mkEntry h b (Fin (now env)) (Fin (now env + ttl * 1000))) /\
  (requestInterceptor env2 this config
     (responseInterceptor env this (Some r) config w).1.2).2
    = if now env2 <? now env + ttl * 1000 then Ok (Some b) else Ok None.
Proof.
  intros Hready Hf Hres Hnz _ _ _ _ Hgate Hok Hread Hnull Hh Hh2 Hst Hput Hs2 Hget.
  set (w1 := (responseInterceptor env this (Some r) config w).1.2).
  destruct (factory this) as [f|] eqn:Ef; [clear Hf|congruence].
  assert (Httl : truthy (ttlSeconds (mkExt (PNum (Fin ttl)) hb)) = true).
  { simpl. destruct (Z.eqb_spec ttl 0); [contradiction|reflexivity]. }
  destruct (responseInterceptor_past_gates env this r config w _ h b f
              Hready Ef Hres Httl Hgate Hok Hread Hnull Hh) as (_ & Hw & _).
  simpl in Hw. fold w1 in Hw.
  set (entry := mkEntry h b (Fin (now env)) (Fin (now env + ttl * 1000))) in *.
  destruct (set_ok env entry w Hst Hput) as (t & ws & Hset & Hdb & Hopen & _).
  rewrite Hset in Hw. simpl in Hw.
  assert (Hl : db w1 !! h = Some entry).
  { rewrite Hw, Hdb. change h with (hash entry) at 1. apply lookup_insert_eq. }
  split; [exact Hl|].
  assert (Hr2 : store_ready env2 w1) by (rewrite Hw; apply store_open_ready; assumption).
  destruct (requestInterceptor_past_gates env2 this config w1 _ h f
              Hready Ef Hres Httl Hgate Hh2) as (-> & _).
  destruct (get_ok env2 h w1 Hr2 Hget) as (t' & w2 & -> & _). simpl.
  rewrite Hl. simpl. reflexivity.
Qed.

Lemma cached_response_is_served_witness :
  (requestInterceptor Cases.env_at_5000 Examples.attached_adapter Examples.post_cache_60
     (responseInterceptor Examples.env_ok Examples.attached_adapter
        (Some Examples.ok_json) Examples.post_cache_60 Examples.attached_world).1.2).2
    = Ok (Some (BJson (JCompound "[1,2,3]"))).
Proof.
  apply (cached_response_is_served Examples.env_ok Cases.env_at_5000
           Examples.attached_adapter Examples.ok_json Examples.post_cache_60
           Examples.attached_world 60 false "h1" (BJson (JCompound "[1,2,3]"))).
  - reflexivity.
  - discriminate.
  - vm_compute. reflexivity.
  - lia.
  - unfold safe_integer. simpl. lia.
  - unfold safe_integer. lia.
  - unfold safe_integer. simpl. lia.
  - unfold safe_integer. simpl. lia.
  - exists true. split; [vm_compute; reflexivity|left; reflexivity].
  - reflexivity.
  - vm_compute. reflexivity.
  - reflexivity.
  - reflexivity.
  - reflexivity.
  - split; reflexivity.
  - reflexivity.
  - reflexivity.
  - reflexivity.
Defined.

(** X13.  The lifetime of an entry is fixed when it is written: for two
    requests with the same fingerprint that both pass the gates, the
    request interceptor returns the same result whatever TTL each of them
    currently resolves to. *)
Theorem lookup_ignores_current_ttl (env : Env) (this : Adapter)
    (config1 config2 : RequestConfig) (w : World) (cm1 cm2 : ExtendedCacheMeta)
    (h : string) :
  ready_ok this -> factory this <> None ->
  resolveCacheMetaConfig (config_meta config1) = Ok cm1 ->
  resolveCacheMetaConfig (config_meta config2) = Ok cm2 ->
  truthy (ttlSeconds cm1) = true -> truthy (ttlSeconds cm2) = true ->
  passes_gate this config1 -> passes_gate this config2 ->
  getHash env (hashBody cm1) = Some h -> getHash env (hashBody cm2) = Some h ->
  (requestInterceptor env this config1 w).2 = (requestInterceptor env this config2 w).2.
Proof.
  intros Hready Hf Hr1 Hr2 Ht1 Ht2 Hg1 Hg2 Hh1 Hh2.
  destruct (factory this) as [f|] eqn:Ef; [clear Hf|congruence].
  destruct (requestInterceptor_past_gates env this config1 w cm1 h f
              Hready Ef Hr1 Ht1 Hg1 Hh1) as (-> & _).
  destruct (requestInterceptor_past_gates env this config2 w cm2 h f
              Hready Ef Hr2 Ht2 Hg2 Hh2) as (-> & _).
  reflexivity.
Qed.

Lemma lookup_ignores_current_ttl_witness :
  (requestInterceptor Examples.env_ok Examples.attached_adapter Examples.post_cache_60
                      Examples.stocked_world).2
  = (requestInterceptor Examples.env_ok Examples.attached_adapter Cases.post_cache_120
                        Examples.stocked_world).2.
Proof.
  apply (lookup_ignores_current_ttl Examples.env_ok Examples.attached_adapter
           Examples.post_cache_60 Cases.post_cache_120 Examples.stocked_world
           (mkExt (PNum (Fin 60)) false) (mkExt (PNum (Fin 120)) false) "h1").
  - reflexivity.
  - discriminate.
  - vm_compute. reflexivity.
  - vm_compute. reflexivity.
  - reflexivity.
  - reflexivity.
  - exists true. split; [vm_compute; reflexivity|left; reflexivity].
  - exists true. split; [vm_compute; reflexivity|left; reflexivity].
  - reflexivity.
  - reflexivity.
Defined.

(** X14.  When [store.set] fails in the response interceptor of an
    attached adapter, the interceptor still completes normally, logs
    'Failed to write cache entry' with the error, and the records are as
    they were. *)
Theorem failed_write_is_logged (env : Env) (this : Adapter) (r : Response)
    (config : RequestConfig) (w : World) (cm : ExtendedCacheMeta) (h : string)
    (b : Body) (err : error) :
  ready_ok this -> factory this <> None ->
  resolveCacheMetaConfig (config_meta config) = Ok cm ->
  truthy (ttlSeconds cm) = true ->
  passes_gate this config ->
  resp_ok r = true ->
  (readResponseSafely env r config w).2 = Ok (Some b) ->
  body_is_null b = false ->
  getHash env (hashBody cm) = Some h ->
  (Store.set env (mkEntry h b (Fin (now env))
                    (add (Fin (now env)) (mul (to_number (ttlSeconds cm)) (Fin 1000)))) w).2
    = Throw err ->
  (responseInterceptor env this (Some r) config w).2 = Ok tt /\
  In (EvLogError "Failed to write cache entry" err)
     (responseInterceptor env this (Some r) config w).1.1 /\
  db (responseInterceptor env this (Some r) config w).1.2 = db w.
Proof.
  intros Hready Hf Hres Httl Hgate Hok Hread Hnull Hh Hfail.
  destruct (factory this) as [f|] eqn:Ef; [clear Hf|congruence].
  destruct (responseInterceptor_past_gates env this r config w cm h b f
              Hready Ef Hres Httl Hgate Hok Hread Hnull Hh) as (Hres' & Hw & Hlog).
  split; [exact Hres'|]. split; [apply Hlog; exact Hfail|].
  rewrite Hw.
  apply (failed_call_keeps_records (env, CallSet _) w err).
  unfold call_error. rewrite Hfail. reflexivity.
Qed.

Lemma failed_write_is_logged_witness :
  (responseInterceptor Cases.env_put_fails Examples.attached_adapter
     (Some Examples.ok_json) Examples.post_cache_60 Examples.attached_world).2 = Ok tt /\
  In (EvLogError "Failed to write cache entry" (StorageIO "put"))
     (responseInterceptor Cases.env_put_fails Examples.attached_adapter
        (Some Examples.ok_json) Examples.post_cache_60 Examples.attached_world).1.1 /\
  db (responseInterceptor Cases.env_put_fails Examples.attached_adapter
        (Some Examples.ok_json) Examples.post_cache_60 Examples.attached_world).1.2
    = db Examples.attached_world.
Proof.
  apply (failed_write_is_logged Cases.env_put_fails Examples.attached_adapter
           Examples.ok_json Examples.post_cache_60 Examples.attached_world
           (mkExt (PNum (Fin 60)) false) "h1" (BJson (JCompound "[1,2,3]"))
           (StorageIO "put")).
  - reflexivity.
  - discriminate.
  - vm_compute. reflexivity.
  - reflexivity.
  - exists true. split; [vm_compute; reflexivity|left; reflexivity].
  - reflexivity.
  - vm_compute. reflexivity.
  - reflexivity.
  - reflexivity.
  - vm_compute. reflexivity.
Defined.

(** X15.  A JSON response whose body is the literal [null] is never
    cached: the parsed value is null, which the interceptor takes for
    'nothing to cache'; no hash is stored and the store is not touched. *)
Theorem json_null_is_not_cached (env : Env) (this : Adapter) (r : Response)
    (config : RequestConfig) (w : World) :
  isJSONResponse env config (ctype r) = true ->
  bodyUsed r = false ->
  json_of r = Ok JNull ->
  written (responseInterceptor env this (Some r) config w).1.1 = [] /\
  db (responseInterceptor env this (Some r) config w).1.2 = db w /\
  no_store_access (responseInterceptor env this (Some r) config w).1.1 = true.
Proof.
  unfold ctype. intros Hj Hbu Hnull.
  unfold_interceptor.
  cbn beta iota delta [fst snd negb app written].
  repeat (step; try (repeat split; reflexivity)).
  all: cbn [fst snd] in *.
  all: try (specialize (Hjson _ Hj Hbu Hnull); simplify_eq; simpl in *; discriminate).
  all: unfold no_store_access in *;
       rewrite ?written_app, ?forallb_app, ?app_nil_r, ?Hwritten, ?Hquiet; auto.
Qed.

Lemma json_null_is_not_cached_witness :
  written (responseInterceptor Examples.env_ok Examples.attached_adapter
             (Some Cases.ok_json_null) Examples.post_cache_60
             Examples.attached_world).1.1 = [] /\
  db (responseInterceptor Examples.env_ok Examples.attached_adapter
        (Some Cases.ok_json_null) Examples.post_cache_60 Examples.attached_world).1.2
    = db Examples.attached_world /\
  no_store_access (responseInterceptor Examples.env_ok Examples.attached_adapter
                     (Some Cases.ok_json_null) Examples.post_cache_60
                     Examples.attached_world).1.1 = true.
Proof.
  apply (json_null_is_not_cached Examples.env_ok Examples.attached_adapter
           Cases.ok_json_null Examples.post_cache_60 Examples.attached_world).
  - vm_compute. reflexivity.
  - reflexivity.
  - reflexivity.
Defined.

(* ===================================================================== *)
(** ** The interceptors: the order of their effects                      *)
(* ===================================================================== *)

(** X16.  Past the gates, the request interceptor does, in this order:
    await the attach-time promise, call the filter (only when the request
    is not explicit and a filter is configured), finalise the URL, ask for
    the hash with [includeBody] set to the resolved [hashBody], and look
    the hash up; a failed lookup is followed by one log call.  It leaves
    the world as the lookup leaves it. *)
Theorem requestInterceptor_effects (env : Env) (this : Adapter) (config : RequestConfig)
    (w : World) (cm : ExtendedCacheMeta) (explicit : bool) (h : string) :
  ready_ok this -> factory this <> None ->
  resolveCacheMetaConfig (config_meta config) = Ok cm ->
  truthy (ttlSeconds cm) = true ->
  isExplicitCache config = Ok explicit ->
  (explicit = true \/
   match a_filter this with Some f => f config = true | None => True end) ->
  getHash env (hashBody cm) = Some h ->
  (requestInterceptor env this config w).1.1
    = (ready_trace this ++ gate_trace this explicit
       ++ EvFinaliseURL :: EvGetHash (hashBody cm) :: (Store.get env h w).1.1
       ++ match (Store.get env h w).2 with
          | Throw err => [EvLogError "Failed to read cache entry" err]
          | Ok _ => []
          end)%list /\
  (requestInterceptor env this config w).1.2 = (Store.get env h w).1.2.
Proof.
  unfold ready_ok, ready_trace. intros Hready Hf Hres Httl Hex Hgate Hh.
  destruct (factory this) as [f|] eqn:Ef; [clear Hf|congruence].
  pose proof (gate_run this config explicit w Hgate) as Hg.
  unfold requestInterceptor. rewrite Hres, Hex.
  unfold await_opt, await, bind, lift, emit, ret. rewrite Httl.
  destruct (readyPromise this) as [[p o]|]; simpl in *; subst; simpl;
    rewrite Hg; unfold tryGetHash, bind, emit, ret; rewrite Hh; simpl;
    unfold try_catch, log_error, bind, emit, ret; rewrite Ef;
    destruct (Store.get env h w) as [[t1 w1] [[e|]|err]]; simpl;
    try destruct (gt (expiresAt e) (Fin (now env))); simpl;
    rewrite ?app_nil_r; auto.
Qed.

Lemma requestInterceptor_effects_witness :
  (requestInterceptor Examples.env_ok Cases.filtering_adapter Cases.get_api_default
                      Examples.stocked_world).1.1
    = [EvFilter; EvFinaliseURL; EvGetHash false; EvAwait 1; EvStoreGet "h1"].
Proof.
  refine (proj1 (requestInterceptor_effects Examples.env_ok Cases.filtering_adapter
                   Cases.get_api_default Examples.stocked_world
                   (mkExt (PNum (Fin 60)) false) false "h1" _ _ _ _ _ _ _)).
  - reflexivity.
  - discriminate.
  - vm_compute. reflexivity.
  - reflexivity.
  - vm_compute. reflexivity.
  - right. reflexivity.
  - reflexivity.
Defined.

(** X17.  Past the gates, the response interceptor does, in this order:
    await the attach-time promise, call the filter (as in the request
    phase), read the body from a copy, ask for the hash with the resolved
    [hashBody], and hand the entry to [store.set]; a failed write is
    followed by one log call.  It does not call [finaliseURL]. *)
Theorem responseInterceptor_effects (env : Env) (this : Adapter) (r : Response)
    (config : RequestConfig) (w : World) (cm : ExtendedCacheMeta) (explicit : bool)
    (h : string) (b : Body) :
  ready_ok this -> factory this <> None ->
  resolveCacheMetaConfig (config_meta config) = Ok cm ->
  truthy (ttlSeconds cm) = true ->
  isExplicitCache config = Ok explicit ->
  (explicit = true \/
   match a_filter this with Some f => f config = true | None => True end) ->
  resp_ok r = true ->
  (readResponseSafely env r config w).2 = Ok (Some b) ->
  body_is_null b = false ->
  getHash env (hashBody cm) = Some h ->
  (responseInterceptor env this (Some r) config w).1.1
    = (ready_trace this ++ gate_trace this explicit
       ++ (readResponseSafely env r config w).1.1
       ++ EvGetHash (hashBody cm)
          :: (Store.set env
                (mkEntry h b (Fin (now env))
                   (add (Fin (now env)) (mul (to_number (ttlSeconds cm)) (Fin 1000))))
                w).1.1
       ++ match (Store.set env
                   (mkEntry h b (Fin (now env))
                      (add (Fin (now env)) (mul (to_number (ttlSeconds cm)) (Fin 1000))))
                   w).2 with
          | Throw err => [EvLogError "Failed to write cache entry" err]
          | Ok _ => []
          end)%list.
Proof.
  unfold ready_ok, ready_trace. intros Hready Hf Hres Httl Hex Hgate Hok Hread Hnull Hh.
  set (entry := mkEntry h b (Fin (now env))
                  (add (Fin (now env)) (mul (to_number (ttlSeconds cm)) (Fin 1000)))).
  destruct (factory this) as [f|] eqn:Ef; [clear Hf|congruence].
  pose proof (gate_run this config explicit w Hgate) as Hg.
  destruct (readResponseSafely_facts env r config w) as (t & b' & Hrun & _).
  rewrite Hrun in Hread |- *. simpl in Hread. injection Hread as ->.
  unfold responseInterceptor. rewrite Hres, Hex.
  unfold await_opt, await, bind, lift, emit, ret. rewrite Httl.
  destruct (readyPromise this) as [[p o]|]; simpl in *; subst; simpl;
    rewrite Hg; simpl; rewrite Hok; simpl; rewrite Hrun; simpl; rewrite Hnull;
    unfold tryGetHash, bind, emit, ret; rewrite Hh; simpl;
    unfold try_catch, log_error; rewrite Ef; fold entry;
    destruct (Store.set env entry w) as [[ts ws] [[]|err]]; simpl;
    rewrite ?app_nil_r; reflexivity.
Qed.

Lemma responseInterceptor_effects_witness :
  (responseInterceptor Examples.env_ok Examples.attached_adapter (Some Examples.ok_json)
                       Examples.post_cache_60 Examples.attached_world).1.1
    = [EvAwait 0; EvClone; EvReadJson Clone; EvGetHash false; EvAwait 1;
       EvStorePut Cases.entry_h1].
Proof.
  apply (responseInterceptor_effects Examples.env_ok Examples.attached_adapter
           Examples.ok_json Examples.post_cache_60 Examples.attached_world
           (mkExt (PNum (Fin 60)) false) true "h1" (BJson (JCompound "[1,2,3]"))).
  - reflexivity.
  - discriminate.
  - vm_compute. reflexivity.
  - reflexivity.
  - vm_compute. reflexivity.
  - left. reflexivity.
  - reflexivity.
  - vm_compute. reflexivity.
  - reflexivity.
  - reflexivity.
Defined.

Lemma Store_set_written (env : Env) (entry : CacheEntry) (w : World) :
  (length (written (Store.set env entry w).1.1) <= 1)%nat.
Proof.
  unfold_store.
  destruct (supported env); simpl; [|lia].
  destruct (dbPromise (store w)) as [[q [[]|e0]]|]; simpl;
    try lia;
    try (destruct (open_outcome env) as [[]|e0]; simpl; try lia);
    destruct (request_error env OpPut); simpl; lia.
Qed.

Ltac step_counting :=
  match goal with
  | |- context [Store.set ?env ?e ?w] =>
      pose proof (Store_set_written env e w); step
  | _ => step
  end.

(** X18.  A call of the response interceptor hands at most one entry to
    the store, and every entry it hands over is stamped in that call: the
    TTL resolved from the request is truthy, [createdAt] is the clock
    reading and [expiresAt] is [createdAt + ttl * 1000] computed from that
    TTL; when the TTL is a whole number and the clock reading,
    [ttl * 1000] and their sum are integers that a double holds exactly,
    [expiresAt] is that sum, for a nonzero [ttl].  The request interceptor
    hands over none. *)
Theorem written_entries_are_stamped (env : Env) (this : Adapter)
    (response : option Response) (config : RequestConfig) (w : World) :
  (length (written (responseInterceptor env this response config w).1.1) <= 1)%nat /\
  (forall e, In e (written (responseInterceptor env this response config w).1.1) ->
     exists cm,
       resolveCacheMetaConfig (config_meta config) = Ok cm /\
       truthy (ttlSeconds cm) = true /\
       createdAt e = Fin (now env) /\
       expiresAt e = add (Fin (now env)) (mul (to_number (ttlSeconds cm)) (Fin 1000)) /\
       (forall ttl, to_number (ttlSeconds cm) = Fin ttl ->
          safe_integer (now env) -> safe_integer (ttl * 1000) ->
          safe_integer (now env + ttl * 1000) ->
          expiresAt e = Fin (now env + ttl * 1000) /\ ttl <> 0)) /\
  written (requestInterceptor env this config w).1.1 = [].
Proof.
  split; [|split].
  - unfold_interceptor.
    cbn beta iota delta [fst snd negb app written].
    repeat (step_counting; cbn [length]; try lia).
    all: cbn [fst snd] in *.
    all: rewrite ?written_app; cbn [written app]; rewrite ?written_app; cbn [written app];
      rewrite ?Hwritten, ?app_nil_r; cbn [app length]; lia.
  - intros e. unfold_interceptor.
    cbn beta iota delta [fst snd negb app written].
    repeat (step; cbn [In]; try tauto).
    all: rewrite ?written_app; cbn [written app]; rewrite ?written_app; cbn [written app];
      rewrite ?Hwritten, ?app_nil_r; cbn [app In]; try tauto.
    all: intros Hin; apply Hset in Hin; subst e; cbn [createdAt expiresAt].
    all: match goal with H : negb (truthy _) = false |- _ => apply negb_false_iff in H end.
    all: eexists; split; [reflexivity|]; split; [assumption|].
    all: split; [reflexivity|]; split; [reflexivity|].
    all: intros ttl Hn _ _ _; rewrite Hn; split; [reflexivity|].
    all: match goal with H : truthy (ttlSeconds ?cm) = true |- _ =>
           destruct (ttlSeconds cm) as [| |[|]|[z|]]; simpl in H, Hn; try discriminate end.
    all: try (injection Hn as <-; lia).
    all: injection Hn as <-; destruct (Z.eqb_spec z 0); [discriminate|assumption].
  - unfold_interceptor.
    cbn beta iota delta [fst snd negb app written].
    repeat (step; try reflexivity).
    all: cbn [fst snd] in *.
    all: destruct Hget as (_ & Hw & _).
    all: rewrite ?written_app; cbn [written app]; rewrite ?written_app, ?Hw; reflexivity.
Qed.

Lemma written_entries_are_stamped_witness :
  expiresAt Cases.entry_h1 = Fin (now Examples.env_ok + 60 * 1000) /\ 60 <> 0.
Proof.
  destruct (proj1 (proj2 (written_entries_are_stamped Examples.env_ok
                            Examples.attached_adapter (Some Examples.ok_json)
                            Examples.post_cache_60 Examples.attached_world))
              Cases.entry_h1) as (cm & Hres & _ & _ & _ & Hsum).
  - vm_compute. left. reflexivity.
  - apply Hsum.
    + vm_compute in Hres. injection Hres as <-. reflexivity.
    + unfold safe_integer. simpl. lia.
    + unfold safe_integer. lia.
    + unfold safe_integer. simpl. lia.
Defined.

(* ===================================================================== *)
(** ** Attaching and invalidating                                        *)
(* ===================================================================== *)

Lemma async_call_run {A : Type} (m : M A) (w : World) :
  async_call m w
  = (EvStart (next_pid w) :: (m (mkWorld (store w) (db w) (S (next_pid w)))).1.1,
     (m (mkWorld (store w) (db w) (S (next_pid w)))).1.2,
     Ok (mkPromise (next_pid w) (m (mkWorld (store w) (db w) (S (next_pid w)))).2)).
Proof.
  unfold async_call. destruct (m _) as [[t w'] r]. reflexivity.
Qed.

Lemma onAttach_clear_run (env : Env) (this : Adapter) (f : HTTPRequestFactory) (w : World) :
  clearOnAttach this = true ->
  onAttach env this f w
  = (EvStart (next_pid w)
       :: (Store.clear env (mkWorld (store w) (db w) (S (next_pid w)))).1.1,
     (Store.clear env (mkWorld (store w) (db w) (S (next_pid w)))).1.2,
     Ok (mkAdapter (a_filter this) true (Some f) (readyPromise this))).
Proof.
  intros Hc. unfold onAttach, try_catch, bind, ret. simpl. rewrite Hc.
  rewrite async_call_run. simpl. rewrite app_nil_r. reflexivity.
Qed.

Lemma onAttach_sweep_run (env : Env) (this : Adapter) (f : HTTPRequestFactory) (w : World) :
  clearOnAttach this = false ->
  onAttach env this f w
  = (EvStart (next_pid w)
       :: (Store.cleanupExpired env (Fin (now env))
             (mkWorld (store w) (db w) (S (next_pid w)))).1.1,
     (Store.cleanupExpired env (Fin (now env))
        (mkWorld (store w) (db w) (S (next_pid w)))).1.2,
     Ok (mkAdapter (a_filter this) false (Some f)
           (Some (mkPromise (next_pid w)
                    (Store.cleanupExpired env (Fin (now env))
                       (mkWorld (store w) (db w) (S (next_pid w)))).2)))).
Proof.
  intros Hc. unfold onAttach, try_catch, bind, ret. simpl. rewrite Hc.
  rewrite async_call_run. simpl. rewrite app_nil_r. reflexivity.
Qed.

(** X19.  Attaching with [clear: true] on a usable database empties the
    store: afterwards no request, whatever its configuration and
    fingerprint, is served from the cache until a response is written
    again. *)
Theorem clear_on_attach_empties_the_store (env : Env) (this : Adapter)
    (f : HTTPRequestFactory) (w : World) :
  clearOnAttach this = true ->
  readyPromise this = None ->
  store_ready env w -> request_error env OpClear = None ->
  exists t w1 this1,
    onAttach env this f w = (t, w1, Ok this1) /\
    db w1 = ∅ /\
    factory this1 = Some f /\ readyPromise this1 = None /\
    forall env2 config b, (requestInterceptor env2 this1 config w1).2 <> Ok (Some b).
Proof.
  intros Hc Hp Hr Hq. rewrite (onAttach_clear_run env this f w Hc).
  destruct (clear_ok env (mkWorld (store w) (db w) (S (next_pid w))) Hr Hq)
    as (t & w1 & -> & Hdb & _).
  simpl. do 3 eexists. split; [reflexivity|]. simpl.
  repeat split; auto.
  intros env2 config b Hhit.
  destruct (hit_source env2 _ config w1 b Hhit) as (cm & h & e & _ & _ & _ & Hl & _).
  rewrite Hdb, lookup_empty in Hl. discriminate.
Qed.

Lemma clear_on_attach_empties_the_store_witness :
  exists t w1 this1,
    onAttach Examples.env_ok Cases.clearing_adapter mkFactory Examples.stocked_world
      = (t, w1, Ok this1) /\
    db w1 = ∅ /\
    factory this1 = Some mkFactory /\ readyPromise this1 = None /\
    forall env2 config b, (requestInterceptor env2 this1 config w1).2 <> Ok (Some b).
Proof.
  apply (clear_on_attach_empties_the_store Examples.env_ok Cases.clearing_adapter mkFactory
           Examples.stocked_world).
  - reflexivity.
  - reflexivity.
  - split; reflexivity.
  - reflexivity.
Defined.

(** X20.  Attaching with [clear: true] never throws and never sets
    [readyPromise], whatever happens to the clear: the adapter comes out
    attached, the interceptors have nothing to await, and the records are
    either all gone or, when the clear failed, all still there. *)
Theorem failed_clear_on_attach_is_silent (env : Env) (this : Adapter)
    (f : HTTPRequestFactory) (w : World) :
  clearOnAttach this = true ->
  exists t w1,
    onAttach env this f w
      = (t, w1, Ok (mkAdapter (a_filter this) true (Some f) (readyPromise this))) /\
    (db w1 = ∅ \/ db w1 = db w).
Proof.
  intros Hc. rewrite (onAttach_clear_run env this f w Hc).
  do 2 eexists. split; [reflexivity|].
  destruct (Store_clear_records env (mkWorld (store w) (db w) (S (next_pid w))))
    as [Hok Hfail].
  destruct (Store.clear env _) as [[t w1] [[]|e]]; simpl in *.
  - left. apply Hok. reflexivity.
  - right. apply (Hfail e). reflexivity.
Qed.

Lemma failed_clear_on_attach_is_silent_witness :
  exists t w1,
    onAttach Examples.env_no_idb Cases.clearing_adapter mkFactory Examples.stocked_world
      = (t, w1, Ok (mkAdapter None true (Some mkFactory) None)) /\
    (db w1 = ∅ \/ db w1 = db Examples.stocked_world).
Proof.
  apply (failed_clear_on_attach_is_silent Examples.env_no_idb Cases.clearing_adapter
           mkFactory Examples.stocked_world).
  reflexivity.
Defined.

(** X21.  Attaching without [clear] on a usable database sweeps: the
    adapter comes out attached with a fulfilled [readyPromise]; exactly the
    entries with [expiresAt] at most the clock reading are removed; and a
    removed entry is one that no lookup at that or a later clock reading
    would have served. *)
Theorem sweep_on_attach (env : Env) (this : Adapter) (f : HTTPRequestFactory) (w : World) :
  clearOnAttach this = false ->
  store_ready env w -> request_error env OpSweep = None ->
  exists t w1 this1,
    onAttach env this f w = (t, w1, Ok this1) /\
    (exists p, readyPromise this1 = Some p /\ outcome p = Ok tt) /\
    factory this1 = Some f /\
    (forall h, db w1 !! h = match db w !! h with
                            | Some e => if le (expiresAt e) (Fin (now env)) then None
                                        else Some e
                            | None => None
                            end) /\
    (forall h e now2, db w !! h = Some e -> db w1 !! h = None -> now env <= now2 ->
                      gt (expiresAt e) (Fin now2) = false).
Proof.
  intros Hc Hr Hq. rewrite (onAttach_sweep_run env this f w Hc).
  destruct (cleanupExpired_ok env (now env) (mkWorld (store w) (db w) (S (next_pid w)))
              Hr Hq) as (t & w1 & -> & Hdb & _).
  simpl. do 3 eexists. split; [reflexivity|]. simpl.
  assert (Hl : forall h, db w1 !! h = match db w !! h with
                            | Some e => if le (expiresAt e) (Fin (now env)) then None
                                        else Some e
                            | None => None
                            end)
    by (intros h; rewrite Hdb; apply filter_fresh_lookup).
  split; [eexists; split; reflexivity|]. split; [reflexivity|]. split; [exact Hl|].
  intros h e now2 He Hn Hle. rewrite Hl, He in Hn.
  destruct (expiresAt e) as [x|]; simpl in *; [|reflexivity].
  destruct (Z.leb_spec x (now env)); [|discriminate].
  apply Z.ltb_ge. lia.
Qed.

Lemma sweep_on_attach_witness :
  exists t w1 this1,
    onAttach Cases.env_at_61000 Cases.sweeping_adapter mkFactory Examples.stocked_world
      = (t, w1, Ok this1) /\
    (exists p, readyPromise this1 = Some p /\ outcome p = Ok tt) /\
    factory this1 = Some mkFactory /\
    (forall h, db w1 !! h
               = match db Examples.stocked_world !! h with
                 | Some e => if le (expiresAt e) (Fin (now Cases.env_at_61000)) then None
                             else Some e
                 | None => None
                 end) /\
    (forall h e now2, db Examples.stocked_world !! h = Some e -> db w1 !! h = None ->
                      now Cases.env_at_61000 <= now2 ->
                      gt (expiresAt e) (Fin now2) = false).
Proof.
  apply (sweep_on_attach Cases.env_at_61000 Cases.sweeping_adapter mkFactory
           Examples.stocked_world).
  - reflexivity.
  - split; reflexivity.
  - reflexivity.
Defined.

(** X22.  [clearCache()] either empties the store or, unlike the
    attach-time clear, reports the failure to its caller and leaves the
    records untouched; with a usable database it succeeds. *)
Theorem clearCache_empties_or_reports (env : Env) (w : World) :
  ((clearCache env w).2 = Ok tt -> db (clearCache env w).1.2 = ∅) /\
  (forall e, (clearCache env w).2 = Throw e -> db (clearCache env w).1.2 = db w) /\
  (store_ready env w -> request_error env OpClear = None -> (clearCache env w).2 = Ok tt).
Proof.
  unfold clearCache. split; [|split].
  - apply Store_clear_records.
  - apply Store_clear_records.
  - intros Hr Hq. destruct (clear_ok env w Hr Hq) as (t & w1 & -> & _). reflexivity.
Qed.

Lemma clearCache_empties_or_reports_witness :
  db (clearCache Examples.env_ok Examples.stocked_world).1.2 = ∅.
Proof.
  apply (proj1 (clearCache_empties_or_reports Examples.env_ok Examples.stocked_world)).
  apply (proj2 (proj2 (clearCache_empties_or_reports Examples.env_ok
                         Examples.stocked_world))).
  - split; reflexivity.
  - reflexivity.
Defined.

(* ===================================================================== *)
(** ** The content type                                                  *)
(* ===================================================================== *)

Lemma before_semicolon_app (a b : string) :
  (forall c, In c (list_ascii_of_string a) -> c <> ";"%char) ->
  before_semicolon (a ++ String ";" b) = a.
Proof.
  induction a as [|c a IH]; simpl; intros H; [reflexivity|].
  destruct (Ascii.eqb_spec c ";") as [->|_]; [exfalso; apply (H ";"%char); auto|].
  rewrite IH; [reflexivity|]. intros d Hd. apply H. right. exact Hd.
Qed.

Lemma before_semicolon_id (a : string) :
  (forall c, In c (list_ascii_of_string a) -> c <> ";"%char) ->
  before_semicolon a = a.
Proof.
  induction a as [|c a IH]; simpl; intros H; [reflexivity|].
  destruct (Ascii.eqb_spec c ";") as [->|_]; [exfalso; apply (H ";"%char); auto|].
  rewrite IH; [reflexivity|]. intros d Hd. apply H. right. exact Hd.
Qed.

Lemma before_semicolon_clean (s : string) (c : ascii) :
  In c (list_ascii_of_string (before_semicolon s)) -> c <> ";"%char.
Proof.
  induction s as [|d s IH]; simpl; [tauto|].
  destruct (Ascii.eqb_spec d ";") as [->|Hd]; simpl; [tauto|].
  intros [<-|Hin]; [exact Hd|apply IH; exact Hin].
Qed.

(** X23.  Only the media type decides how a body is extracted: for a
    [content-type] header made of a media type without semicolon, a
    semicolon and any parameters, the extraction goes by the media type
    alone and does what it does for the header without the parameters; the
    content type it goes by never contains a semicolon. *)
Theorem content_type_parameters_are_ignored (r : Response) (mediaType params : string) :
  (forall c, In c (list_ascii_of_string mediaType) -> c <> ";"%char) ->
  content_type r = Some (mediaType ++ String ";" params) ->
  ctype r = mediaType /\
  (forall env config w,
     readResponseSafely env r config w
     = readResponseSafely env
         (mkResponse (resp_ok r) (Some mediaType) (bodyUsed r) (json_of r) (text_of r))
         config w) /\
  (forall r' c, In c (list_ascii_of_string (ctype r')) -> c <> ";"%char).
Proof.
  intros Hm Hct.
  assert (H1 : ctype r = mediaType)
    by (unfold ctype; rewrite Hct; simpl; apply before_semicolon_app; exact Hm).
  split; [exact H1|]. split.
  - intros env config w.
    set (r2 := mkResponse (resp_ok r) (Some mediaType) (bodyUsed r) (json_of r) (text_of r)).
    assert (H2 : ctype r2 = mediaType) by (apply (before_semicolon_id mediaType Hm)).
    unfold readResponseSafely, clone, read_json, read_text, original,
      try_catch, bind, lift, emit, ret, throw.
    fold (ctype r). fold (ctype r2). rewrite H1, H2.
    destruct (isJSONResponse env config mediaType),
      (isTextResponse env config mediaType), (bodyUsed r) eqn:Hused;
      repeat (progress (cbn [content identity bodyUsed json_of text_of r2];
                        rewrite ?Hused));
      reflexivity.
  - intros r' c. unfold ctype. destruct (content_type r') as [s|]; simpl; [|tauto].
    apply before_semicolon_clean.
Qed.

Lemma content_type_parameters_are_ignored_witness :
  ctype Examples.ok_json = "application/json".
Proof.
  refine (proj1 (content_type_parameters_are_ignored Examples.ok_json "application/json"
                   " charset=utf-8" _ _)).
  - intros c Hc Heq. subst c. vm_compute in Hc. intuition discriminate.
  - reflexivity.
Defined.

(* ===================================================================== *)
(** ** The earlier revision                                              *)
(* ===================================================================== *)



(** X25.  The earlier revision's [resolveTTLSeconds] clamps: a positive
    number is returned as it is, [true] counts as 1, and everything else
    (zero, a negative number, NaN, null, undefined, false) gives 0; so its
    result is never negative, and an entry written with a positive result
    expires after it was created. *)
Theorem legacy_resolveTTLSeconds_clamps (cache : prim) :
  (forall z, cache = PNum (Fin z) -> 0 < z -> Legacy.resolveTTLSeconds cache = Fin z) /\
  (forall z, cache = PNum (Fin z) -> z <= 0 -> Legacy.resolveTTLSeconds cache = Fin 0) /\
  (cache = PNum NaN \/ cache = PUndef \/ cache = PNull \/ cache = PBool false ->
     Legacy.resolveTTLSeconds cache = Fin 0) /\
  (cache = PBool true -> Legacy.resolveTTLSeconds cache = Fin 1) /\
  (forall z, Legacy.resolveTTLSeconds cache = Fin z ->
     0 <= z /\
     (0 < z -> forall now, gt (add (Fin now) (mul (Fin z) (Fin 1000))) (Fin now) = true)).
Proof.
  unfold Legacy.resolveTTLSeconds, or_else.
  split; [|split; [|split; [|split]]].
  - intros z -> Hz. simpl. destruct (Z.eqb_spec z 0); [lia|]. simpl.
    destruct (Z.ltb_spec 0 z); [reflexivity|lia].
  - intros z -> Hz. simpl. destruct (Z.eqb_spec z 0) as [->|]; [reflexivity|]. simpl.
    destruct (Z.ltb_spec 0 z); [lia|reflexivity].
  - intros [->|[->|[->| ->]]]; reflexivity.
  - intros ->. reflexivity.
  - intros z H. split.
    + revert H. destruct cache as [| |[|]|[x|]]; simpl; try (intros [= <-]; lia).
      destruct (Z.eqb_spec x 0); simpl; [intros [= <-]; lia|].
      destruct (Z.ltb_spec 0 x); intros [= <-]; lia.
    + intros Hz now. simpl. apply Z.ltb_lt. lia.
Qed.

Lemma legacy_resolveTTLSeconds_clamps_witness :
  Legacy.resolveTTLSeconds (PNum (Fin (-5))) = Fin 0.
Proof.
  apply (proj1 (proj2 (legacy_resolveTTLSeconds_clamps (PNum (Fin (-5))))) (-5)).
  - reflexivity.
  - lia.
Defined.

Lemma prefix_toLowerCase (p s : string) :
  String.prefix p s = true ->
  String.prefix (LegacyResponse.toLowerCase p) (LegacyResponse.toLowerCase s) = true.
Proof.
  revert s. induction p as [|c p IH]; intros s; [intros _; destruct s; reflexivity|].
  destruct s as [|d s]; simpl; [discriminate|].
  destruct (Ascii.ascii_dec c d) as [->|Hne]; [|discriminate].
  intros H. destruct (Ascii.ascii_dec _ _); [|congruence]. apply IH. exact H.
Qed.

Lemma includes_toLowerCase (p s : string) :
  LegacyResponse.includes p s = true ->
  LegacyResponse.includes (LegacyResponse.toLowerCase p) (LegacyResponse.toLowerCase s)
    = true.
Proof.
  induction s as [|d s IH]; cbn [LegacyResponse.includes]; intros H;
    apply orb_true_iff in H as [H|H]; try discriminate.
  - apply prefix_toLowerCase in H.
    cbn [LegacyResponse.toLowerCase LegacyResponse.includes] in *.
    rewrite H. reflexivity.
  - apply prefix_toLowerCase in H.
    cbn [LegacyResponse.toLowerCase LegacyResponse.includes] in *.
    rewrite H. reflexivity.
  - cbn [LegacyResponse.toLowerCase LegacyResponse.includes].
    rewrite (IH H). apply orb_true_r.
Qed.

Lemma json_is_textual (ct : string) :
  LegacyResponse.includes "json" ct = true ->
  LegacyResponse.isTextualContentType (Some ct) = true.
Proof.
  intros H. unfold LegacyResponse.isTextualContentType.
  destruct (String.eqb_spec ct "") as [->|_]; [discriminate|].
  apply (includes_toLowerCase "json" ct) in H.
  change (LegacyResponse.toLowerCase "json") with "json" in H.
  rewrite H. reflexivity.
Qed.

Lemma lower_char_idempotent (c : ascii) :
  LegacyResponse.lower_char (LegacyResponse.lower_char c) = LegacyResponse.lower_char c.
Proof. destruct c as [[] [] [] [] [] [] [] []]; reflexivity. Qed.

Lemma toLowerCase_idempotent (s : string) :
  LegacyResponse.toLowerCase (LegacyResponse.toLowerCase s) = LegacyResponse.toLowerCase s.
Proof.
  induction s as [|c s IH]; [reflexivity|].
  simpl. rewrite lower_char_idempotent, IH. reflexivity.
Qed.

(** X26.  The earlier revision's [isTextualContentType]: null and the
    empty string are not textual; the answer does not depend on the letter
    case of the content type; and every content type that contains [json]
    is textual. *)
Theorem legacy_isTextualContentType_cases :
  LegacyResponse.isTextualContentType None = false /\
  LegacyResponse.isTextualContentType (Some "") = false /\
  (forall ct, LegacyResponse.isTextualContentType (Some (LegacyResponse.toLowerCase ct))
              = LegacyResponse.isTextualContentType (Some ct)) /\
  (forall ct, LegacyResponse.includes "json" ct = true ->
              LegacyResponse.isTextualContentType (Some ct) = true).
Proof.
  split; [reflexivity|]. split; [reflexivity|]. split.
  - intros ct. unfold LegacyResponse.isTextualContentType.
    rewrite toLowerCase_idempotent. destruct ct; reflexivity.
  - exact json_is_textual.
Qed.

Lemma legacy_isTextualContentType_cases_witness :
  LegacyResponse.isTextualContentType (Some "application/json") = true.
Proof.
  apply (proj2 (proj2 (proj2 legacy_isTextualContentType_cases)) "application/json").
  reflexivity.
Defined.

(** X27.  The earlier revision's [readResponseSafely] never throws and
    reads copies only; a JSON-typed body that parses is returned as JSON; a
    JSON-typed body that does not parse falls back to its text, because
    every JSON content type is also textual; other textual bodies are
    returned as text; and for a content type that is not textual it returns
    null without copying the response. *)
Theorem legacy_readResponseSafely_cases (response : Response) (w : World) :
  exists t b,
    LegacyResponse.readResponseSafely response w = (t, w, Ok b) /\
    no_store_access t = true /\
    forallb (fun ev => negb (reads_original ev)) t = true /\
    (forall j, LegacyResponse.includes "json" (ctype response) = true ->
               bodyUsed response = false ->
               json_of response = Ok j -> b = Some (BJson j)) /\
    (forall e s, LegacyResponse.includes "json" (ctype response) = true ->
                 bodyUsed response = false ->
                 json_of response = Throw e -> text_of response = Ok s ->
                 b = Some (BText s)) /\
    (forall s, LegacyResponse.includes "json" (ctype response) = false ->
               LegacyResponse.isTextualContentType (Some (ctype response)) = true ->
               bodyUsed response = false -> text_of response = Ok s ->
               b = Some (BText s)) /\
    (LegacyResponse.isTextualContentType (Some (ctype response)) = false ->
     b = None /\ t = []).
Proof.
  pose proof (json_is_textual (ctype response)) as Hjt.
  unfold LegacyResponse.readResponseSafely, clone, read_json, read_text, original,
    try_catch, bind, lift, emit, ret, throw.
  fold (ctype response).
  destruct (LegacyResponse.includes "json" (ctype response)),
    (LegacyResponse.isTextualContentType (Some (ctype response))),
    (bodyUsed response) eqn:Hused, (json_of response) as [j0|e1] eqn:Hjson,
    (text_of response) as [s0|e2] eqn:Htext;
    repeat (progress (cbn [content identity app]; rewrite ?Hused, ?Hjson, ?Htext)).
  all: do 2 eexists; (split; [reflexivity|]).
  all: repeat split; intros; simplify_eq; try congruence.
  all: try (specialize (Hjt eq_refl); discriminate).
Qed.

Lemma legacy_readResponseSafely_cases_witness :
  exists t b,
    LegacyResponse.readResponseSafely Examples.ok_json Examples.attached_world
      = (t, Examples.attached_world, Ok b) /\
    b = Some (BJson (JCompound "[1,2,3]")).
Proof.
  destruct (legacy_readResponseSafely_cases Examples.ok_json Examples.attached_world)
    as (t & b & Hrun & _ & _ & Hjson & _).
  exists t, b. split; [exact Hrun|].
  apply Hjson; reflexivity.
Defined.
